(** * examples/create-anytrust-custom-fee-token/index.ts

    A shallow embedding of the example script that deploys an AnyTrust
    rollup with a custom fee token and then prepares the keyset
    transaction.  The script is sequential effectful code: it reads the
    process environment, calls into viem and the orbit SDK, writes to the
    console and throws.  It is embedded in a state-and-exception monad
    whose state is the trace of observable events (console lines and
    calls to the external libraries, each with its arguments) together
    with the number of random draws made so far.  Every external call
    may throw; what it returns or throws is given by a [World]. *)

From Stdlib Require Import String List ZArith Bool Lia.
Import ListNotations.
Open Scope string_scope.
Open Scope list_scope.

(** ** Values *)

(** A JavaScript value thrown as an exception, represented by the text
    that the template literal [`${error}`] produces for it. *)
Definition JsError := string.

Definition Hex := string.
Definition Address := string.
Definition PrivateKey := string.

(** [process.env] after [config()] has run: every variable is a string
    or [undefined]. *)
Record Env := mkEnv {
  DEPLOYER_PRIVATE_KEY : option string;
  CUSTOM_FEE_TOKEN_ADDRESS : option string;
  PARENT_CHAIN_RPC : option string;
  BATCH_POSTER_PRIVATE_KEY : option string;
  VALIDATOR_PRIVATE_KEY : option string
}.

(** A viem chain descriptor: its id and [rpcUrls.default.http[0]]. *)
Record Chain := mkChain {
  chain_id : Z;
  chain_default_rpc : string
}.

(** [http(url)]: the transport remembers the url it was given. *)
Record Transport := mkTransport {
  transport_url : option string
}.

Definition http (url : option string) : Transport := mkTransport url.

(** The account object returned by [privateKeyToAccount]: the address
    and the key it signs with. *)
Record Account := mkAccount {
  address : Address;
  account_key : PrivateKey
}.

Record PublicClient := mkPublicClient {
  pc_chain : Chain;
  pc_transport : Transport
}.

Record WalletClient := mkWalletClient {
  wc_account : Account;
  wc_chain : Chain;
  wc_transport : Transport
}.

(** The endpoint a viem http transport talks to:
    [url || chain.rpcUrls.default.http[0]]; the empty string is falsy. *)
Definition endpoint (c : Chain) (t : Transport) : string :=
  match transport_url t with
  | None => chain_default_rpc c
  | Some u => if String.eqb u EmptyString then chain_default_rpc c else u
  end.

Definition pc_endpoint (c : PublicClient) : string :=
  endpoint (pc_chain c) (pc_transport c).

Definition wc_endpoint (c : WalletClient) : string :=
  endpoint (wc_chain c) (wc_transport c).

(** Argument of [prepareChainConfig]. *)
Record ChainConfigParams := mkChainConfigParams {
  ccp_chainId : Z;
  ccp_InitialChainOwner : Address;
  ccp_DataAvailabilityCommittee : bool
}.

(** Second argument of [createRollupPrepareDeploymentParamsConfig]. *)
Record DeploymentParams := mkDeploymentParams {
  dp_chainId : Z;
  dp_owner : Address;
  dp_chainConfig : string
}.

(** The deployment configuration that
    [createRollupPrepareDeploymentParamsConfig] returns: the parameters
    it was given, completed with the SDK's defaults for the parent
    chain. *)
Record RollupConfig := mkRollupConfig {
  cfg_chainId : Z;
  cfg_owner : Address;
  cfg_chainConfig : string;
  cfg_defaults : list (string * string)
}.

(** Argument of [createRollupPrepareTransactionRequest]. *)
Record CreateRollupArgs := mkCreateRollupArgs {
  cr_config : RollupConfig;
  cr_batchPosters : list Address;
  cr_validators : list Address;
  cr_nativeToken : option string;
  cr_account : Address;
  cr_publicClient : PublicClient
}.

Record TxRequest := mkTxRequest {
  chainId : Z;
  tx_to : Address;
  tx_data : Hex
}.

Record Receipt := mkReceipt {
  transactionHash : Hex;
  receipt_logs : list Hex
}.

Record CoreContracts := mkCoreContracts {
  rollup : Address;
  inbox : Address;
  cc_upgradeExecutor : Address;
  cc_sequencerInbox : Address
}.

(** The [coreContracts] field of the keyset request: the two addresses
    that [setValidKeysetPrepareTransactionRequest] reads. *)
Record KeysetCoreContracts := mkKeysetCoreContracts {
  upgradeExecutor : Address;
  sequencerInbox : Address
}.

Record SetValidKeysetArgs := mkSetValidKeysetArgs {
  sk_coreContracts : KeysetCoreContracts;
  sk_keyset : Hex;
  sk_account : Address;
  sk_publicClient : PublicClient
}.

(** ** Events *)

(** One argument of a [console.log] call. *)
Inductive LogArg :=
| LStr (s : string)
| LNum (n : Z)
| LCoreContracts (c : CoreContracts).

(** A call into viem or the orbit SDK, with its arguments. *)
Inductive Call :=
| GeneratePrivateKey
| SanitizePrivateKey (privateKey : string)
| PrivateKeyToAccount (privateKey : PrivateKey)
| CreatePublicClient (chain : Chain) (transport : Transport)
| CreateWalletClient (account : Account) (chain : Chain) (transport : Transport)
| GenerateChainId
| PrepareChainConfig (p : ChainConfigParams)
| CreateRollupPrepareDeploymentParamsConfig (c : PublicClient) (p : DeploymentParams)
| CreateRollupPrepareTransactionRequest (a : CreateRollupArgs)
| SendTransaction (w : WalletClient) (r : TxRequest)
| WaitForTransactionReceipt (c : PublicClient) (hash : Hex)
| CreateRollupPrepareTransactionReceipt (r : Receipt)
| GetCoreContracts (r : Receipt)
| SetValidKeysetPrepareTransactionRequest (a : SetValidKeysetArgs).

Inductive Event :=
| ConsoleWarn (msg : string)
| ConsoleLog (args : list LogArg)
| ConsoleError (msg : string)
| Called (c : Call).

(** ** The monad *)

Inductive Result (A : Type) :=
| Ok (a : A)
| Throw (e : JsError).
Arguments Ok {A}.
Arguments Throw {A}.

Record State := mkState {
  trace : list Event;
  draws : nat
}.

Definition M (A : Type) : Type := State -> Result A * State.

Definition ret {A} (a : A) : M A := fun s => (Ok a, s).

Definition throw {A} (e : JsError) : M A := fun s => (Throw e, s).

Definition bind {A B} (m : M A) (k : A -> M B) : M B :=
  fun s =>
    match m s with
    | (Ok a, s') => k a s'
    | (Throw e, s') => (Throw e, s')
    end.

(** [try { body } catch (error) { handler }] *)
Definition try_catch {A} (body : M A) (handler : JsError -> M A)
  : M A :=
  fun s =>
    match body s with
    | (Ok a, s') => (Ok a, s')
    | (Throw e, s') => handler e s'
    end.

Definition emit (e : Event) : M unit :=
  fun s => (Ok tt, mkState (trace s ++ [e]) (draws s)).

Definition draw : M nat :=
  fun s => (Ok (draws s), mkState (trace s) (S (draws s))).

Definition lift {A} (r : Result A) : M A := fun s => (r, s).

Declare Scope js_scope.
Delimit Scope js_scope with js.
Notation "x <- m ;; k" := (bind m (fun x => k))
  (at level 61, m at next level, right associativity) : js_scope.
Notation "m ;; k" := (bind m (fun _ => k))
  (at level 61, right associativity) : js_scope.
Open Scope js_scope.

Definition console_warn (msg : string) : M unit :=
  emit (ConsoleWarn msg).
Definition console_log (args : list LogArg) : M unit :=
  emit (ConsoleLog args).
Definition console_error (msg : string) : M unit :=
  emit (ConsoleError msg).

(** ** The external libraries *)

(** What viem and the orbit SDK return or throw.  The two generators
    take the index of the random draw.  A private key that
    [privateKeyToAccount] accepts yields the account that signs with it;
    [addressOfKey] is the address derivation, which throws on a key that
    is not valid. *)
Record World := mkWorld {
  arbitrumSepolia : Chain;
  generatePrivateKey_at : nat -> PrivateKey;
  sanitizePrivateKey_of : string -> Result PrivateKey;
  addressOfKey : PrivateKey -> Result Address;
  generateChainId_at : nat -> Z;
  prepareChainConfig_of : ChainConfigParams -> Result string;
  createRollupPrepareDeploymentParamsConfig_of :
    PublicClient -> DeploymentParams -> Result RollupConfig;
  createRollupPrepareTransactionRequest_of :
    CreateRollupArgs -> Result TxRequest;
  sendTransaction_of : WalletClient -> TxRequest -> Result Hex;
  waitForTransactionReceipt_of : PublicClient -> Hex -> Result Receipt;
  createRollupPrepareTransactionReceipt_of : Receipt -> Result Receipt;
  getCoreContracts_of : Receipt -> Result CoreContracts;
  setValidKeysetPrepareTransactionRequest_of :
    SetValidKeysetArgs -> Result TxRequest
}.

(** ** The script *)

Section Script.

Variable W : World.

(** An external call: recorded in the trace, then it returns or throws. *)
Definition call {A} (c : Call) (r : Result A) : M A :=
  emit (Called c) ;; lift r.

Definition generatePrivateKey : M PrivateKey :=
  emit (Called GeneratePrivateKey) ;;
  n <- draw ;;
  ret (generatePrivateKey_at W n).

Definition sanitizePrivateKey (privateKey : string) : M PrivateKey :=
  call (SanitizePrivateKey privateKey) (sanitizePrivateKey_of W privateKey).

Definition privateKeyToAccount (privateKey : PrivateKey) : M Account :=
  call (PrivateKeyToAccount privateKey)
       (match addressOfKey W privateKey with
        | Ok a => Ok (mkAccount a privateKey)
        | Throw e => Throw e
        end).

Definition createPublicClient (chain : Chain) (transport : Transport)
  : M PublicClient :=
  call (CreatePublicClient chain transport) (Ok (mkPublicClient chain transport)).

Definition createWalletClient (account : Account) (chain : Chain)
  (transport : Transport) : M WalletClient :=
  call (CreateWalletClient account chain transport)
       (Ok (mkWalletClient account chain transport)).

Definition generateChainId : M Z :=
  emit (Called GenerateChainId) ;;
  n <- draw ;;
  ret (generateChainId_at W n).

Definition prepareChainConfig (p : ChainConfigParams) : M string :=
  call (PrepareChainConfig p) (prepareChainConfig_of W p).

Definition createRollupPrepareDeploymentParamsConfig (c : PublicClient)
  (p : DeploymentParams) : M RollupConfig :=
  call (CreateRollupPrepareDeploymentParamsConfig c p)
       (createRollupPrepareDeploymentParamsConfig_of W c p).

Definition createRollupPrepareTransactionRequest (a : CreateRollupArgs)
  : M TxRequest :=
  call (CreateRollupPrepareTransactionRequest a)
       (createRollupPrepareTransactionRequest_of W a).

Definition sendTransaction (w : WalletClient) (r : TxRequest) : M Hex :=
  call (SendTransaction w r) (sendTransaction_of W w r).

Definition waitForTransactionReceipt (c : PublicClient) (hash : Hex)
  : M Receipt :=
  call (WaitForTransactionReceipt c hash) (waitForTransactionReceipt_of W c hash).

Definition createRollupPrepareTransactionReceipt (r : Receipt) : M Receipt :=
  call (CreateRollupPrepareTransactionReceipt r)
       (createRollupPrepareTransactionReceipt_of W r).

Definition getCoreContracts (r : Receipt) : M CoreContracts :=
  call (GetCoreContracts r) (getCoreContracts_of W r).

Definition setValidKeysetPrepareTransactionRequest (a : SetValidKeysetArgs)
  : M TxRequest :=
  call (SetValidKeysetPrepareTransactionRequest a)
       (setValidKeysetPrepareTransactionRequest_of W a).

(** [typeof x === 'undefined' || x === ''] *)
Definition undefined_or_empty (x : option string) : bool :=
  match x with
  | None => true
  | Some s => String.eqb s EmptyString
  end.

(** Lines 15-21. *)
Definition withFallbackPrivateKey (privateKey : option string) : M PrivateKey :=
  match privateKey with
  | None => generatePrivateKey
  | Some s => if String.eqb s EmptyString then generatePrivateKey else sanitizePrivateKey s
  end.

(** The double quote character inside the messages. *)
Definition dq : string := String (Ascii.ascii_of_nat 34) EmptyString.

Definition missing_deployer_key : JsError :=
  ("Error: Please provide the " ++ dq ++ "DEPLOYER_PRIVATE_KEY" ++ dq
   ++ " environment variable")%string.

Definition missing_fee_token : JsError :=
  ("Error: Please provide the " ++ dq ++ "CUSTOM_FEE_TOKEN_ADDRESS" ++ dq
   ++ " environment variable")%string.

Definition rpc_warning : string :=
  ("Warning: you may encounter timeout errors while running the script with the default rpc endpoint. Please provide the "
   ++ dq ++ "PARENT_CHAIN_RPC" ++ dq ++ " environment variable instead.")%string.

(** The module-level constants that [main] can see. *)
Record Ctx := mkCtx {
  env : Env;
  batchPosterPrivateKey : PrivateKey;
  batchPoster : Address;
  validatorPrivateKey : PrivateKey;
  validator : Address;
  parentChain : Chain;
  parentChainPublicClient : PublicClient;
  deployer : Account;
  walletClient : WalletClient
}.

(** Lines 23-60: the module-level statements, in order. *)
Definition startup (env : Env) : M Ctx :=
  match DEPLOYER_PRIVATE_KEY env with
  | None => throw missing_deployer_key
  | Some deployerPrivateKey =>
    match CUSTOM_FEE_TOKEN_ADDRESS env with
    | None => throw missing_fee_token
    | Some _ =>
      (if undefined_or_empty (PARENT_CHAIN_RPC env)
       then console_warn rpc_warning else ret tt) ;;
      batchPosterPrivateKey <- withFallbackPrivateKey (BATCH_POSTER_PRIVATE_KEY env) ;;
      batchPosterAccount <- privateKeyToAccount batchPosterPrivateKey ;;
      let batchPoster := address batchPosterAccount in
      validatorPrivateKey <- withFallbackPrivateKey (VALIDATOR_PRIVATE_KEY env) ;;
      validatorAccount <- privateKeyToAccount validatorPrivateKey ;;
      let validator := address validatorAccount in
      let parentChain := arbitrumSepolia W in
      parentChainPublicClient <-
        createPublicClient parentChain (http (PARENT_CHAIN_RPC env)) ;;
      sanitized <- sanitizePrivateKey deployerPrivateKey ;;
      deployer <- privateKeyToAccount sanitized ;;
      walletClient <-
        createWalletClient deployer parentChain (http (PARENT_CHAIN_RPC env)) ;;
      ret (mkCtx env batchPosterPrivateKey batchPoster validatorPrivateKey
                 validator parentChain parentChainPublicClient deployer
                 walletClient)
    end
  end.

Definition keyset : Hex :=
  "0x000000000000000100000000000000010121600e6aaa4020e004ce635a088fff55a10e2e53cdb6bff78b48b37e7d3ab93c8167e4c719a123cd051726132b3c35b113380606924fddcb816562ae7616fc7f3f310cc65a605b687157340647613f449471434a86fd528b1b68dccd91ab18ee7eb116db8475834d9c7577b034db754bfdd69f3b4f4e37599b9691fba1bf973777e49ed7b01fa6bbc06f41db6e8d85268a7b01912b627c19bb9baac20cd13fca76d08a9783b54c2c50fb8f513760114cd0b73161c2aaa8042e7dc5d5406720e31cde018fa7068a474ba985d6b9690cfd3cd3b88b1b9cb680b59ef089eddbc2fa875d0b01457688b3d7b7eabe4fb4018a812c03e19e84c802f5b12d619715a8ac920831510636a641417adf8650f697bbe10457d5bd06ca261b4194efa9fc5b42eaaa".

(** Lines 63-78, line 66 apart: the chain id and the deployment
    configuration.  The argument [prepareChainConfig(...)] is evaluated
    before the call it is an argument of; [BigInt(chainId)] is the same
    integer. *)
Definition prepareConfig (ctx : Ctx) : M RollupConfig :=
  chainId <- generateChainId ;;
  chainConfig <-
    prepareChainConfig
      (mkChainConfigParams chainId (address (deployer ctx)) true) ;;
  createRollupPrepareDeploymentParamsConfig (parentChainPublicClient ctx)
    (mkDeploymentParams chainId (address (deployer ctx)) chainConfig).

(** Lines 85-94: the argument of
    [createRollupPrepareTransactionRequest]. *)
Definition deploymentArgs (ctx : Ctx) (nativeToken : option string)
  (createRollupConfig : RollupConfig) : CreateRollupArgs :=
  mkCreateRollupArgs createRollupConfig [batchPoster ctx] [validator ctx]
    nativeToken (address (deployer ctx)) (parentChainPublicClient ctx).

(** Lines 84-116: the body of the first [try]. *)
Definition deploymentBody (ctx : Ctx) (nativeToken : option string)
  (createRollupConfig : RollupConfig) : M unit :=
  txRequest <-
    createRollupPrepareTransactionRequest
      (deploymentArgs ctx nativeToken createRollupConfig) ;;
  let parentChainId := chainId txRequest in
  console_log [LStr "Transaction request prepared successfully"] ;;
  console_log [LStr "Parent Chain ID:"; LNum parentChainId] ;;
  console_log [LStr "Creating rollup..."] ;;
  txHash <- sendTransaction (walletClient ctx) txRequest ;;
  console_log [LStr "Transaction sent. Waiting for confirmation..."] ;;
  receipt <- waitForTransactionReceipt (parentChainPublicClient ctx) txHash ;;
  console_log [LStr ("Transaction confirmed: " ++ transactionHash receipt)%string] ;;
  txReceipt <- createRollupPrepareTransactionReceipt receipt ;;
  coreContracts <- getCoreContracts txReceipt ;;
  console_log [LStr "Core contracts:"; LCoreContracts coreContracts] ;;
  console_log [LStr ("Rollup address: " ++ rollup coreContracts)%string] ;;
  console_log [LStr ("Inbox address: " ++ inbox coreContracts)%string].

(** Lines 118-120: the first [catch]. *)
Definition deploymentCatch (error : JsError) : M unit :=
  console_error ("Rollup creation failed with error: " ++ error)%string.

(** Lines 124-132: the argument of
    [setValidKeysetPrepareTransactionRequest]. *)
Definition keysetArgs (ctx : Ctx) : SetValidKeysetArgs :=
  mkSetValidKeysetArgs
    (mkKeysetCoreContracts
       "0x15b5BDf7a5e0305B9a4bE413383C9b1500C8FCF2"
       "0x6c97864CE4bEf387dE0b3310A44230f7E3F1be0D")
    keyset (address (deployer ctx)) (parentChainPublicClient ctx).

(** Lines 123-132: the body of the second [try]; the request it
    obtains is bound to a local constant and the block ends. *)
Definition keysetBody (ctx : Ctx) : M unit :=
  txRequest <- setValidKeysetPrepareTransactionRequest (keysetArgs ctx) ;;
  ret tt.

(** Lines 133-135: the second [catch], which is empty. *)
Definition keysetCatch (error : JsError) : M unit := ret tt.

(** Lines 62-137. *)
Definition main (ctx : Ctx) : M unit :=
  createRollupConfig <- prepareConfig ctx ;;
  let nativeToken := CUSTOM_FEE_TOKEN_ADDRESS (env ctx) in
  try_catch (deploymentBody ctx nativeToken createRollupConfig) deploymentCatch ;;
  try_catch (keysetBody ctx) keysetCatch.

(** The whole module: the top-level statements, then [main()]. *)
Definition program (env : Env) : M unit :=
  ctx <- startup env ;;
  main ctx.

Definition initial : State := mkState [] 0.

End Script.

(** ** Concrete worlds and environments

    Used to run the script on explicit inputs. *)

Definition has_0x (s : string) : bool := String.prefix "0x" s.

(** A world in which every external call succeeds; the deployment
    receipt yields the contracts [sampleContracts]. *)
Definition sampleContracts : CoreContracts :=
  mkCoreContracts "0xAAA" "0xBBB" "0xCCC" "0xDDD".

Definition okWorld : World := {|
  arbitrumSepolia := mkChain 421614 "https://sepolia-rollup.arbitrum.io/rpc";
  generatePrivateKey_at := fun n => if Nat.eqb n 0 then "0xk0" else "0xk1";
  sanitizePrivateKey_of :=
    fun s => Ok (if has_0x s then s else ("0x" ++ s)%string);
  addressOfKey := fun k => Ok ("addr-of-" ++ k)%string;
  generateChainId_at := fun n => (1000 + Z.of_nat n)%Z;
  prepareChainConfig_of := fun _ => Ok "{}";
  createRollupPrepareDeploymentParamsConfig_of :=
    fun _ p => Ok (mkRollupConfig (dp_chainId p) (dp_owner p) (dp_chainConfig p) []);
  createRollupPrepareTransactionRequest_of :=
    fun _ => Ok (mkTxRequest 421614 "0xRollupCreator" "0xcreate");
  sendTransaction_of := fun _ _ => Ok "0xhash";
  waitForTransactionReceipt_of := fun _ h => Ok (mkReceipt h []);
  createRollupPrepareTransactionReceipt_of := fun r => Ok r;
  getCoreContracts_of := fun _ => Ok sampleContracts;
  setValidKeysetPrepareTransactionRequest_of :=
    fun _ => Ok (mkTxRequest 421614 "0xUpgradeExecutor" "0xkeyset")
|}.

(** As [okWorld], but the transport fails when the deployment
    transaction is submitted. *)
Definition sendFailWorld : World := {|
  arbitrumSepolia := arbitrumSepolia okWorld;
  generatePrivateKey_at := generatePrivateKey_at okWorld;
  sanitizePrivateKey_of := sanitizePrivateKey_of okWorld;
  addressOfKey := addressOfKey okWorld;
  generateChainId_at := generateChainId_at okWorld;
  prepareChainConfig_of := prepareChainConfig_of okWorld;
  createRollupPrepareDeploymentParamsConfig_of :=
    createRollupPrepareDeploymentParamsConfig_of okWorld;
  createRollupPrepareTransactionRequest_of :=
    createRollupPrepareTransactionRequest_of okWorld;
  sendTransaction_of := fun _ _ => Throw "Error: transport error";
  waitForTransactionReceipt_of := waitForTransactionReceipt_of okWorld;
  createRollupPrepareTransactionReceipt_of :=
    createRollupPrepareTransactionReceipt_of okWorld;
  getCoreContracts_of := getCoreContracts_of okWorld;
  setValidKeysetPrepareTransactionRequest_of :=
    setValidKeysetPrepareTransactionRequest_of okWorld
|}.

(** As [okWorld], but building the keyset request fails. *)
Definition keysetFailWorld : World := {|
  arbitrumSepolia := arbitrumSepolia okWorld;
  generatePrivateKey_at := generatePrivateKey_at okWorld;
  sanitizePrivateKey_of := sanitizePrivateKey_of okWorld;
  addressOfKey := addressOfKey okWorld;
  generateChainId_at := generateChainId_at okWorld;
  prepareChainConfig_of := prepareChainConfig_of okWorld;
  createRollupPrepareDeploymentParamsConfig_of :=
    createRollupPrepareDeploymentParamsConfig_of okWorld;
  createRollupPrepareTransactionRequest_of :=
    createRollupPrepareTransactionRequest_of okWorld;
  sendTransaction_of := sendTransaction_of okWorld;
  waitForTransactionReceipt_of := waitForTransactionReceipt_of okWorld;
  createRollupPrepareTransactionReceipt_of :=
    createRollupPrepareTransactionReceipt_of okWorld;
  getCoreContracts_of := getCoreContracts_of okWorld;
  setValidKeysetPrepareTransactionRequest_of :=
    fun _ => Throw "Error: keyset request failed"
|}.

(** Required variables set, optional ones unset. *)
Definition minimalEnv : Env :=
  mkEnv (Some "d1") (Some "0xFEE0000000000000000000000000000000000001")
        None None None.

(** Every variable set. *)
Definition fullEnv : Env :=
  mkEnv (Some "0xd1") (Some "0xFEE0000000000000000000000000000000000001")
        (Some "https://rpc.example") (Some "b1") (Some "0xv1").

(** Every variable set to the empty string. *)
Definition blankEnv : Env :=
  mkEnv (Some EmptyString) (Some EmptyString) (Some EmptyString)
        (Some EmptyString) (Some EmptyString).

(** No deployer key. *)
Definition noDeployerEnv : Env :=
  mkEnv None (Some "0xFEE0000000000000000000000000000000000001")
        (Some "https://rpc.example") None None.

(** No fee token address. *)
Definition noFeeTokenEnv : Env :=
  mkEnv (Some "0xd1") None None None None.

(** The context that [startup okWorld minimalEnv] builds. *)
Definition sampleCtx : Ctx :=
  let chain := arbitrumSepolia okWorld in
  let acct := mkAccount "addr-of-0xd1" "0xd1" in
  mkCtx minimalEnv "0xk0" "addr-of-0xk0" "0xk1" "addr-of-0xk1" chain
        (mkPublicClient chain (http None)) acct
        (mkWalletClient acct chain (http None)).

(** The events a [catch] block of the deployment phase adds for the
    outcome [r] of the [try] block. *)
Definition caught {A} (r : Result A) : list Event :=
  match r with
  | Ok _ => []
  | Throw e => [ConsoleError ("Rollup creation failed with error: " ++ e)%string]
  end.

(** The events of a key that signs or is bound to a signing client. *)
Definition signing_key (e : Event) : option PrivateKey :=
  match e with
  | Called (CreateWalletClient a _ _) => Some (account_key a)
  | Called (SendTransaction w _) => Some (account_key (wc_account w))
  | _ => None
  end.

(** Calls that go to the parent chain over the network. *)
Definition is_network_call (e : Event) : bool :=
  match e with
  | Called (CreateRollupPrepareTransactionRequest _)
  | Called (SendTransaction _ _)
  | Called (WaitForTransactionReceipt _ _)
  | Called (SetValidKeysetPrepareTransactionRequest _) => true
  | _ => false
  end.

(** Calls that bind a client to a transport. *)
Definition is_transport_binding (e : Event) : bool :=
  match e with
  | Called (CreatePublicClient _ _)
  | Called (CreateWalletClient _ _ _) => true
  | _ => false
  end.

Definition is_send (e : Event) : bool :=
  match e with
  | Called (SendTransaction _ _) => true
  | _ => false
  end.


(** A world like [okWorld] in which the calls of the deployment phase
    answer as given. *)
Definition stageWorld (prep : Result TxRequest) (send : Result Hex)
  (wait : Result Receipt) (parsed : Result Receipt)
  (core : Result CoreContracts) : World := {|
  arbitrumSepolia := arbitrumSepolia okWorld;
  generatePrivateKey_at := generatePrivateKey_at okWorld;
  sanitizePrivateKey_of := sanitizePrivateKey_of okWorld;
  addressOfKey := addressOfKey okWorld;
  generateChainId_at := generateChainId_at okWorld;
  prepareChainConfig_of := prepareChainConfig_of okWorld;
  createRollupPrepareDeploymentParamsConfig_of :=
    createRollupPrepareDeploymentParamsConfig_of okWorld;
  createRollupPrepareTransactionRequest_of := fun _ => prep;
  sendTransaction_of := fun _ _ => send;
  waitForTransactionReceipt_of := fun _ _ => wait;
  createRollupPrepareTransactionReceipt_of := fun _ => parsed;
  getCoreContracts_of := fun _ => core;
  setValidKeysetPrepareTransactionRequest_of :=
    setValidKeysetPrepareTransactionRequest_of okWorld
|}.

(** As [okWorld], but [sanitizePrivateKey] rejects the string [bad] and
    [prepareChainConfig] throws. *)
Definition strictWorld : World := {|
  arbitrumSepolia := arbitrumSepolia okWorld;
  generatePrivateKey_at := generatePrivateKey_at okWorld;
  sanitizePrivateKey_of :=
    fun s => if String.eqb s "bad"
             then Throw "Error: invalid private key"
             else sanitizePrivateKey_of okWorld s;
  addressOfKey := addressOfKey okWorld;
  generateChainId_at := generateChainId_at okWorld;
  prepareChainConfig_of := fun _ => Throw "Error: invalid chain config";
  createRollupPrepareDeploymentParamsConfig_of :=
    createRollupPrepareDeploymentParamsConfig_of okWorld;
  createRollupPrepareTransactionRequest_of :=
    createRollupPrepareTransactionRequest_of okWorld;
  sendTransaction_of := sendTransaction_of okWorld;
  waitForTransactionReceipt_of := waitForTransactionReceipt_of okWorld;
  createRollupPrepareTransactionReceipt_of :=
    createRollupPrepareTransactionReceipt_of okWorld;
  getCoreContracts_of := getCoreContracts_of okWorld;
  setValidKeysetPrepareTransactionRequest_of :=
    setValidKeysetPrepareTransactionRequest_of okWorld
|}.

(** Required variables set, the batch-poster key malformed. *)
Definition badBatchPosterEnv : Env :=
  mkEnv (Some "0xd1") (Some "0xFEE0000000000000000000000000000000000001")
        (Some "https://rpc.example") (Some "bad") None.

Definition sampleRequest : TxRequest :=
  mkTxRequest 421614 "0xRollupCreator" "0xcreate".

Definition sampleReceipt : Receipt := mkReceipt "0xhash" [].

Definition sampleConfig : RollupConfig :=
  mkRollupConfig 1000 "addr-of-0xd1" "{}" [].

(** Worlds in which the deployment phase fails at a given step. *)
Definition requestFailWorld : World :=
  stageWorld (Throw "Error: rpc unreachable") (Ok "0xhash") (Ok sampleReceipt)
             (Ok sampleReceipt) (Ok sampleContracts).

Definition submitFailWorld : World :=
  stageWorld (Ok sampleRequest) (Throw "Error: insufficient funds")
             (Ok sampleReceipt) (Ok sampleReceipt) (Ok sampleContracts).

Definition waitFailWorld : World :=
  stageWorld (Ok sampleRequest) (Ok "0xhash") (Throw "Error: timed out")
             (Ok sampleReceipt) (Ok sampleContracts).

Definition parseFailWorld : World :=
  stageWorld (Ok sampleRequest) (Ok "0xhash") (Ok sampleReceipt)
             (Ok sampleReceipt) (Throw "Error: no RollupCreated log").

(** As [okWorld], but [privateKeyToAccount] rejects the key [0xbad]. *)
Definition checkedKeyWorld : World := {|
  arbitrumSepolia := arbitrumSepolia okWorld;
  generatePrivateKey_at := generatePrivateKey_at okWorld;
  sanitizePrivateKey_of := sanitizePrivateKey_of okWorld;
  addressOfKey :=
    fun k => if String.eqb k "0xbad"
             then Throw "Error: invalid private key"
             else addressOfKey okWorld k;
  generateChainId_at := generateChainId_at okWorld;
  prepareChainConfig_of := prepareChainConfig_of okWorld;
  createRollupPrepareDeploymentParamsConfig_of :=
    createRollupPrepareDeploymentParamsConfig_of okWorld;
  createRollupPrepareTransactionRequest_of :=
    createRollupPrepareTransactionRequest_of okWorld;
  sendTransaction_of := sendTransaction_of okWorld;
  waitForTransactionReceipt_of := waitForTransactionReceipt_of okWorld;
  createRollupPrepareTransactionReceipt_of :=
    createRollupPrepareTransactionReceipt_of okWorld;
  getCoreContracts_of := getCoreContracts_of okWorld;
  setValidKeysetPrepareTransactionRequest_of :=
    setValidKeysetPrepareTransactionRequest_of okWorld
|}.

(** The key, or the error, that [withFallbackPrivateKey] gives for the
    variable [x] once [n] random draws have been made. *)
Definition fallbackKey (W : World) (x : option string) (n : nat)
  : Result PrivateKey :=
  fst (withFallbackPrivateKey W x (mkState [] n)).

(** The draw at which the validator key is resolved: one later when
    the batch-poster key was generated. *)
Definition validator_draw (en : Env) (n : nat) : nat :=
  n + (if undefined_or_empty (BATCH_POSTER_PRIVATE_KEY en) then 1 else 0).

Definition is_deployment_request (e : Event) : bool :=
  match e with
  | Called (CreateRollupPrepareTransactionRequest _) => true
  | _ => false
  end.

Definition is_keyset_request (e : Event) : bool :=
  match e with
  | Called (SetValidKeysetPrepareTransactionRequest _) => true
  | _ => false
  end.

(** The context that [startup okWorld blankEnv] builds. *)
Definition blankCtx : Ctx :=
  let chain := arbitrumSepolia okWorld in
  let acct := mkAccount "addr-of-0x" "0x" in
  mkCtx blankEnv "0xk0" "addr-of-0xk0" "0xk1" "addr-of-0xk1" chain
        (mkPublicClient chain (http (Some EmptyString))) acct
        (mkWalletClient acct chain (http (Some EmptyString))).

Definition is_generate (e : Event) : bool :=
  match e with
  | Called GeneratePrivateKey => true
  | _ => false
  end.

Definition is_sanitize (e : Event) : bool :=
  match e with
  | Called (SanitizePrivateKey _) => true
  | _ => false
  end.

Definition is_wait (e : Event) : bool :=
  match e with
  | Called (WaitForTransactionReceipt _ _) => true
  | _ => false
  end.

(** The number of optional keys that are [undefined] or empty. *)
Definition missing_optional_keys (en : Env) : nat :=
  (if undefined_or_empty (BATCH_POSTER_PRIVATE_KEY en) then 1 else 0)
  + (if undefined_or_empty (VALIDATOR_PRIVATE_KEY en) then 1 else 0).

Definition is_create_public_client (e : Event) : bool :=
  match e with
  | Called (CreatePublicClient _ _) => true
  | _ => false
  end.

Definition is_sanitize_of (privateKey : string) (e : Event) : bool :=
  match e with
  | Called (SanitizePrivateKey x) => String.eqb x privateKey
  | _ => false
  end.

(** [followed_by a b l]: in [l], every event that satisfies [a] is
    immediately followed by an event that satisfies [b]. *)
Fixpoint followed_by (a b : Event -> bool) (l : list Event) : bool :=
  match l with
  | [] => true
  | x :: t =>
      (if a x then match t with y :: _ => b y | [] => false end else true)
      && followed_by a b t
  end.


(** The keyset request, when an event is one, names the two fixed
    addresses. *)
Definition keyset_addresses_fixed (e : Event) : Prop :=
  forall a,
    e = Called (SetValidKeysetPrepareTransactionRequest a) ->
    sk_coreContracts a
    = mkKeysetCoreContracts "0x15b5BDf7a5e0305B9a4bE413383C9b1500C8FCF2"
                            "0x6c97864CE4bEf387dE0b3310A44230f7E3F1be0D".

(** The deployment request, when an event is one, carries the fee token
    [fee]. *)
Definition native_token_is (fee : option string) (e : Event) : Prop :=
  forall a,
    e = Called (CreateRollupPrepareTransactionRequest a) ->
    cr_nativeToken a = fee.

Definition not_a_warning (e : Event) : Prop :=
  forall m, e <> ConsoleWarn m.

(** ** Reasoning about traces *)

(** [emits P m]: whatever the state, [m] only appends events to the
    trace, and every event it appends satisfies [P]. *)
Definition emits {A} (P : Event -> Prop) (m : M A) : Prop :=
  forall s, exists l, trace (snd (m s)) = trace s ++ l /\ Forall P l.

Section Emits.

Variable P : Event -> Prop.

Lemma emits_ret A (a : A) : emits P (ret a).
Proof. intros s. exists []. simpl. now rewrite app_nil_r. Qed.

Lemma emits_throw A (e : JsError) : emits P (@throw A e).
Proof. intros s. exists []. simpl. now rewrite app_nil_r. Qed.

Lemma emits_lift A (r : Result A) : emits P (lift r).
Proof. intros s. exists []. simpl. now rewrite app_nil_r. Qed.

Lemma emits_draw : emits P draw.
Proof. intros s. exists []. simpl. now rewrite app_nil_r. Qed.

Lemma emits_emit e : P e -> emits P (emit e).
Proof. intros He s. exists [e]. simpl. auto. Qed.

Lemma emits_bind A B (m : M A) (k : A -> M B) :
  emits P m -> (forall a, emits P (k a)) -> emits P (bind m k).
Proof.
  intros Hm Hk s. unfold bind.
  destruct (Hm s) as (l1 & E1 & F1).
  destruct (m s) as [[a | e] s1]; simpl in E1.
  - destruct (Hk a s1) as (l2 & E2 & F2).
    exists (l1 ++ l2). rewrite E2, E1, app_assoc. split; auto.
    apply Forall_app; auto.
  - exists l1. simpl. auto.
Qed.

Lemma emits_try_catch A (m : M A) (h : JsError -> M A) :
  emits P m -> (forall e, emits P (h e)) -> emits P (try_catch m h).
Proof.
  intros Hm Hh s. unfold try_catch.
  destruct (Hm s) as (l1 & E1 & F1).
  destruct (m s) as [[a | e] s1]; simpl in E1.
  - exists l1. simpl. auto.
  - destruct (Hh e s1) as (l2 & E2 & F2).
    exists (l1 ++ l2). rewrite E2, E1, app_assoc. split; auto.
    apply Forall_app; auto.
Qed.

Lemma emits_call A (c : Call) (r : Result A) :
  P (Called c) -> emits P (call c r).
Proof.
  intros Hc. unfold call. apply emits_bind.
  - now apply emits_emit.
  - intros _. apply emits_lift.
Qed.

End Emits.

Lemma emits_weaken A (P Q : Event -> Prop) (m : M A) :
  (forall e, P e -> Q e) -> emits P m -> emits Q m.
Proof.
  intros HPQ Hm s. destruct (Hm s) as (l & E & F).
  exists l. split; auto. eapply Forall_impl; eauto.
Qed.

(** Every new event of a computation satisfies [P], read on a run. *)
Lemma emits_run A (P : Event -> Prop) (m : M A) s r s' :
  emits P m -> m s = (r, s') ->
  exists l, trace s' = trace s ++ l /\ Forall P l.
Proof. intros Hm E. specialize (Hm s). now rewrite E in Hm. Qed.

Lemma emits_initial A (P : Event -> Prop) (m : M A) :
  emits P m -> Forall P (trace (snd (m initial))).
Proof.
  intros Hm. destruct (Hm initial) as (l & E & F). now rewrite E.
Qed.

(** One syntactic step of an [emits] proof. *)
Ltac emits_step :=
  lazymatch goal with
  | |- emits _ (bind _ _) => apply emits_bind; [ | intros ? ]
  | |- emits _ (try_catch _ _) => apply emits_try_catch; [ | intros ? ]
  | |- emits _ (ret _) => apply emits_ret
  | |- emits _ (throw _) => apply emits_throw
  | |- emits _ (lift _) => apply emits_lift
  | |- emits _ draw => apply emits_draw
  | |- emits _ (call _ _) => apply emits_call
  | |- emits _ (emit _) => apply emits_emit
  | |- emits _ (match ?x with _ => _ end) => destruct x
  | |- emits _ (if ?x then _ else _) => destruct x
  | |- emits _ _ => progress cbv beta zeta
  end.

(** Unfolds the script down to the monad's primitives. *)
Ltac unfold_script :=
  unfold program, main, startup, prepareConfig, deploymentBody,
    deploymentCatch, keysetBody, keysetCatch, withFallbackPrivateKey,
    generatePrivateKey, sanitizePrivateKey, privateKeyToAccount,
    createPublicClient, createWalletClient, generateChainId,
    prepareChainConfig, createRollupPrepareDeploymentParamsConfig,
    createRollupPrepareTransactionRequest, sendTransaction,
    waitForTransactionReceipt, createRollupPrepareTransactionReceipt,
    getCoreContracts, setValidKeysetPrepareTransactionRequest,
    console_log, console_warn, console_error, call.

Arguments rpc_warning : simpl never.
Arguments missing_deployer_key : simpl never.
Arguments missing_fee_token : simpl never.
Arguments keyset : simpl never.

Ltac unfold_monad :=
  unfold bind, try_catch, emit, lift, ret, throw, draw.

(** ** The two phases of [main] *)

Section Phases.

Variable W : World.

(** The keyset phase, whatever the world answers, ends normally and adds
    one event to the trace: the call that builds the request. *)
Lemma keyset_phase_run ctx s :
  exists n,
    try_catch (keysetBody W ctx) keysetCatch s
    = (Ok tt,
       mkState (trace s ++ [Called (SetValidKeysetPrepareTransactionRequest
                                      (keysetArgs ctx))]) n).
Proof.
  unfold keysetBody, keysetCatch, setValidKeysetPrepareTransactionRequest, call.
  unfold_monad. cbn.
  destruct (setValidKeysetPrepareTransactionRequest_of W (keysetArgs ctx));
    cbn; eexists; reflexivity.
Qed.

(** [main] after the configuration has been prepared: the first
    [try]/[catch], then the second. *)
Lemma main_after_config ctx s cfg s0 r s1 :
  prepareConfig W ctx s = (Ok cfg, s0) ->
  deploymentBody W ctx (CUSTOM_FEE_TOKEN_ADDRESS (env ctx)) cfg s0 = (r, s1) ->
  exists n,
    main W ctx s
    = (Ok tt,
       mkState (trace s1 ++ caught r
                ++ [Called (SetValidKeysetPrepareTransactionRequest
                              (keysetArgs ctx))]) n).
Proof.
  intros Hcfg Hdep. unfold main.
  unfold bind at 1. rewrite Hcfg. cbv zeta.
  unfold bind at 1. unfold try_catch at 1. rewrite Hdep.
  destruct r as [[] | e].
  - destruct (keyset_phase_run ctx s1) as (n & E). rewrite E.
    exists n. reflexivity.
  - unfold deploymentCatch, console_error, emit.
    match goal with
    | |- context [try_catch (keysetBody W ctx) keysetCatch ?st] =>
        destruct (keyset_phase_run ctx st) as (n & E); rewrite E
    end.
    exists n. cbn. now rewrite <- app_assoc.
Qed.

(** The successful run of the first [try] block. *)
Lemma deploymentBody_success ctx nativeToken cfg s0
      txRequest txHash receipt txReceipt coreContracts :
  createRollupPrepareTransactionRequest_of W (deploymentArgs ctx nativeToken cfg)
    = Ok txRequest ->
  sendTransaction_of W (walletClient ctx) txRequest = Ok txHash ->
  waitForTransactionReceipt_of W (parentChainPublicClient ctx) txHash = Ok receipt ->
  createRollupPrepareTransactionReceipt_of W receipt = Ok txReceipt ->
  getCoreContracts_of W txReceipt = Ok coreContracts ->
  deploymentBody W ctx nativeToken cfg s0
  = (Ok tt,
     mkState
       (trace s0 ++
        [ Called (CreateRollupPrepareTransactionRequest
                    (deploymentArgs ctx nativeToken cfg));
          ConsoleLog [LStr "Transaction request prepared successfully"];
          ConsoleLog [LStr "Parent Chain ID:"; LNum (chainId txRequest)];
          ConsoleLog [LStr "Creating rollup..."];
          Called (SendTransaction (walletClient ctx) txRequest);
          ConsoleLog [LStr "Transaction sent. Waiting for confirmation..."];
          Called (WaitForTransactionReceipt (parentChainPublicClient ctx) txHash);
          ConsoleLog [LStr ("Transaction confirmed: " ++ transactionHash receipt)%string];
          Called (CreateRollupPrepareTransactionReceipt receipt);
          Called (GetCoreContracts txReceipt);
          ConsoleLog [LStr "Core contracts:"; LCoreContracts coreContracts];
          ConsoleLog [LStr ("Rollup address: " ++ rollup coreContracts)%string];
          ConsoleLog [LStr ("Inbox address: " ++ inbox coreContracts)%string] ])
       (draws s0)).
Proof.
  intros H1 H2 H3 H4 H5.
  unfold_script. unfold_monad. cbn.
  rewrite H1. cbn. rewrite H2. cbn. rewrite H3. cbn. rewrite H4. cbn.
  rewrite H5. cbn. f_equal. f_equal. repeat rewrite <- app_assoc. reflexivity.
Qed.

(** An error at any of the four steps makes the first [try] block
    throw that error. *)
Lemma deploymentBody_failure ctx nativeToken cfg s0 e :
  createRollupPrepareTransactionRequest_of W (deploymentArgs ctx nativeToken cfg)
    = Throw e
  \/ (exists txRequest,
        createRollupPrepareTransactionRequest_of W
          (deploymentArgs ctx nativeToken cfg) = Ok txRequest /\
        (sendTransaction_of W (walletClient ctx) txRequest = Throw e
         \/ exists txHash,
              sendTransaction_of W (walletClient ctx) txRequest = Ok txHash /\
              (waitForTransactionReceipt_of W (parentChainPublicClient ctx) txHash
                 = Throw e
               \/ exists receipt,
                    waitForTransactionReceipt_of W (parentChainPublicClient ctx)
                      txHash = Ok receipt /\
                    (createRollupPrepareTransactionReceipt_of W receipt = Throw e
                     \/ exists txReceipt,
                          createRollupPrepareTransactionReceipt_of W receipt
                            = Ok txReceipt /\
                          getCoreContracts_of W txReceipt = Throw e)))) ->
  exists s1, deploymentBody W ctx nativeToken cfg s0 = (Throw e, s1).
Proof.
  intros H. unfold_script. unfold_monad. cbn.
  destruct H as [H | (rq & H1 & H)]; [rewrite H; cbn; eauto | rewrite H1; cbn].
  destruct H as [H | (h & H2 & H)]; [rewrite H; cbn; eauto | rewrite H2; cbn].
  destruct H as [H | (rc & H3 & H)]; [rewrite H; cbn; eauto | rewrite H3; cbn].
  destruct H as [H | (tr & H4 & H)]; [rewrite H; cbn; eauto | rewrite H4; cbn].
  rewrite H. cbn. eauto.
Qed.

End Phases.

(** ** The module-level statements *)

(** Case analysis on whatever the goal still matches on. *)
Ltac destruct_scrutinee :=
  match goal with
  | |- context [match ?x with _ => _ end] =>
      lazymatch x with
      | context [match _ with _ => _ end] => fail
      | _ => let E := fresh "E" in destruct x eqn:E
      end
  end.

Ltac run_startup := unfold_script; unfold_monad; cbn; repeat (destruct_scrutinee; cbn).

Section Startup.

Variable W : World.

Lemma program_unfold en s :
  program W en s
  = match startup W en s with
    | (Ok ctx, s1) => main W ctx s1
    | (Throw e, s1) => (Throw e, s1)
    end.
Proof. reflexivity. Qed.

(** The two guards: nothing happens before they throw. *)
Lemma startup_no_deployer_key en s :
  DEPLOYER_PRIVATE_KEY en = None ->
  startup W en s = (Throw missing_deployer_key, s).
Proof. intros H. unfold startup. now rewrite H. Qed.

Lemma startup_no_fee_token en s dk :
  DEPLOYER_PRIVATE_KEY en = Some dk ->
  CUSTOM_FEE_TOKEN_ADDRESS en = None ->
  startup W en s = (Throw missing_fee_token, s).
Proof. intros H1 H2. unfold startup. now rewrite H1, H2. Qed.

(** What a successful [startup] has done and what its context holds. *)
Lemma startup_ok en s ctx s' :
  startup W en s = (Ok ctx, s') ->
  env ctx = en /\
  parentChain ctx = arbitrumSepolia W /\
  parentChainPublicClient ctx
    = mkPublicClient (arbitrumSepolia W) (http (PARENT_CHAIN_RPC en)) /\
  walletClient ctx
    = mkWalletClient (deployer ctx) (arbitrumSepolia W) (http (PARENT_CHAIN_RPC en)) /\
  (exists dk,
      DEPLOYER_PRIVATE_KEY en = Some dk /\
      sanitizePrivateKey_of W dk = Ok (account_key (deployer ctx)) /\
      addressOfKey W (account_key (deployer ctx)) = Ok (address (deployer ctx))) /\
  (exists fee, CUSTOM_FEE_TOKEN_ADDRESS en = Some fee) /\
  addressOfKey W (batchPosterPrivateKey ctx) = Ok (batchPoster ctx) /\
  addressOfKey W (validatorPrivateKey ctx) = Ok (validator ctx) /\
  In (Called (CreatePublicClient (arbitrumSepolia W) (http (PARENT_CHAIN_RPC en))))
     (trace s') /\
  In (Called (CreateWalletClient (deployer ctx) (arbitrumSepolia W)
                (http (PARENT_CHAIN_RPC en))))
     (trace s').
Proof.
  revert s ctx s'. destruct en as [dk fee rpc bp va]. intros s ctx s'.
  run_startup; try discriminate.
  all: intros H; inversion H; subst; clear H; cbn.
  all: repeat rewrite in_app_iff; cbn.
  all: repeat split; eauto 8.
Qed.

(** The first statement after the guards leaves an event: [startup]
    that passes both guards extends the trace. *)
Lemma startup_past_guards en s dk fee r s' :
  DEPLOYER_PRIVATE_KEY en = Some dk ->
  CUSTOM_FEE_TOKEN_ADDRESS en = Some fee ->
  startup W en s = (r, s') ->
  exists e l, trace s' = trace s ++ e :: l.
Proof.
  revert s r s'. destruct en as [dk' fee' rpc bp va]. cbn. intros s r s' -> ->.
  run_startup.
  all: intros H; inversion H; subst; clear H; cbn.
  all: repeat rewrite <- app_assoc; cbn; eexists; eexists; reflexivity.
Qed.

(** With the endpoint unset or empty, the first event is the warning. *)
Lemma startup_warns en s dk fee r s' :
  DEPLOYER_PRIVATE_KEY en = Some dk ->
  CUSTOM_FEE_TOKEN_ADDRESS en = Some fee ->
  undefined_or_empty (PARENT_CHAIN_RPC en) = true ->
  startup W en s = (r, s') ->
  exists l, trace s' = trace s ++ ConsoleWarn rpc_warning :: l.
Proof.
  revert s r s'. destruct en as [dk' fee' rpc bp va]. cbn. intros s r s' -> -> Hrpc.
  unfold startup. cbn. rewrite Hrpc.
  run_startup.
  all: intros H; inversion H; subst; clear H; cbn.
  all: repeat rewrite <- app_assoc; cbn; eexists; reflexivity.
Qed.

(** With the endpoint set, [startup] writes no warning. *)
Lemma startup_no_warning en :
  undefined_or_empty (PARENT_CHAIN_RPC en) = false ->
  emits not_a_warning (startup W en).
Proof.
  intros Hrpc. unfold_script. rewrite Hrpc.
  repeat emits_step; intros m; discriminate.
Qed.

(** The public client is created right before the deployer key is
    handed to [sanitizePrivateKey]. *)
Lemma startup_sanitizes_deployer_key en dk r s' :
  DEPLOYER_PRIVATE_KEY en = Some dk ->
  startup W en initial = (r, s') ->
  followed_by is_create_public_client (is_sanitize_of dk) (trace s') = true.
Proof.
  revert r s'. destruct en as [dk' fee' rpc bp va]. cbn. intros r s' ->.
  run_startup.
  all: intros H; inversion H; subst; clear H; cbn.
  all: try rewrite String.eqb_refl; reflexivity.
Qed.


End Startup.

(** ** The whole run *)

Section Run.

Variable W : World.

(** [program] is [startup] followed, when it returns, by [main]. *)
Lemma program_emits (P : Event -> Prop) en :
  emits P (startup W en) ->
  (forall ctx s s', startup W en s = (Ok ctx, s') -> emits P (main W ctx)) ->
  emits P (program W en).
Proof.
  intros Hs Hm s. rewrite program_unfold.
  destruct (Hs s) as (l1 & E1 & F1).
  destruct (startup W en s) as [[ctx | e] s1] eqn:E; cbn in E1.
  - destruct (Hm ctx s s1 E s1) as (l2 & E2 & F2).
    exists (l1 ++ l2). rewrite E2, E1, app_assoc. split; auto.
    apply Forall_app; auto.
  - exists l1. cbn. auto.
Qed.

(** A property of events that no call of [startup] can break. *)
Lemma startup_emits_calls (P : Event -> Prop) en :
  (forall m, P (ConsoleWarn m)) ->
  P (Called GeneratePrivateKey) ->
  (forall x, P (Called (SanitizePrivateKey x))) ->
  (forall x, P (Called (PrivateKeyToAccount x))) ->
  (forall c t, P (Called (CreatePublicClient c t))) ->
  (forall a c t, P (Called (CreateWalletClient a c t))) ->
  emits P (startup W en).
Proof.
  intros. unfold_script. repeat emits_step; auto.
Qed.

(** The keyset request of [main] names the two fixed addresses. *)
Lemma main_keyset_addresses ctx : emits keyset_addresses_fixed (main W ctx).
Proof.
  unfold_script. repeat emits_step.
  all: intros args H; inversion H; subst; reflexivity.
Qed.

(** The deployment request of [main] carries the fee token of the
    environment. *)
Lemma main_native_token ctx :
  emits (native_token_is (CUSTOM_FEE_TOKEN_ADDRESS (env ctx))) (main W ctx).
Proof.
  unfold_script. repeat emits_step.
  all: intros args H; inversion H; subst; reflexivity.
Qed.


End Run.

(** ** When [startup] gets through *)

(** Uses the answers of the world that the context gives, and splits
    on the others. *)
Ltac run_with_answers :=
  unfold_script; unfold_monad; cbn;
  repeat (first
            [ match goal with
              | H : ?l = Ok _ |- context [?l] => rewrite H
              | H : ?l = Throw _ |- context [?l] => rewrite H
              | H : ?l = true |- context [?l] => rewrite H
              | H : ?l = false |- context [?l] => rewrite H
              end
            | destruct_scrutinee ];
          cbn).

(** Reads a hypothesis on [fallbackKey] as the answers of the world. *)
Ltac read_fallbackKey H :=
  unfold fallbackKey, withFallbackPrivateKey, generatePrivateKey,
    sanitizePrivateKey, call, bind, emit, lift, ret, draw in H;
  cbn in H;
  repeat match type of H with
    | context [match ?x with _ => _ end] =>
        let E := fresh "E" in destruct x eqn:E; cbn in H
    end;
  try discriminate H;
  inversion H; subst; clear H.

Section Progress.

Variable W : World.

Lemma withFallbackPrivateKey_fst x s :
  fst (withFallbackPrivateKey W x s) = fallbackKey W x (draws s).
Proof.
  unfold fallbackKey, withFallbackPrivateKey, generatePrivateKey,
    sanitizePrivateKey, call. unfold_monad.
  destruct x as [x | ]; [destruct (String.eqb x EmptyString) | ]; reflexivity.
Qed.

(** When the two optional keys resolve to keys that have an address,
    [startup] gets as far as the deployer key: the public client is
    created and [sanitizePrivateKey] is called on the deployer string. *)
Lemma startup_reaches_deployer_key en s dk fee kb ab kv av :
  DEPLOYER_PRIVATE_KEY en = Some dk ->
  CUSTOM_FEE_TOKEN_ADDRESS en = Some fee ->
  fallbackKey W (BATCH_POSTER_PRIVATE_KEY en) (draws s) = Ok kb ->
  addressOfKey W kb = Ok ab ->
  fallbackKey W (VALIDATOR_PRIVATE_KEY en) (validator_draw en (draws s)) = Ok kv ->
  addressOfKey W kv = Ok av ->
  exists l,
    trace (snd (startup W en s)) = trace s ++ l /\
    In (Called (CreatePublicClient (arbitrumSepolia W) (http (PARENT_CHAIN_RPC en)))) l /\
    In (Called (SanitizePrivateKey dk)) l.
Proof.
  destruct en as [dk' fee' rpc bp va]. unfold validator_draw. cbn.
  intros -> -> Hkb Hab Hkv Hav.
  destruct bp as [bp | ]; destruct va as [va | ]; cbn in Hkb, Hkv;
    read_fallbackKey Hkb;
    cbn in Hkv; rewrite ?Nat.add_0_r, ?Nat.add_1_r in Hkv;
    read_fallbackKey Hkv.
  all: run_with_answers.
  all: repeat rewrite <- app_assoc; cbn; eexists; split; [ reflexivity | ].
  all: cbn; auto 12.
Qed.

(** When, moreover, the deployer key is accepted, [startup] returns the
    context built from these keys and addresses. *)
Lemma startup_returns en s dk fee kb ab kv av k a :
  DEPLOYER_PRIVATE_KEY en = Some dk ->
  CUSTOM_FEE_TOKEN_ADDRESS en = Some fee ->
  fallbackKey W (BATCH_POSTER_PRIVATE_KEY en) (draws s) = Ok kb ->
  addressOfKey W kb = Ok ab ->
  fallbackKey W (VALIDATOR_PRIVATE_KEY en) (validator_draw en (draws s)) = Ok kv ->
  addressOfKey W kv = Ok av ->
  sanitizePrivateKey_of W dk = Ok k ->
  addressOfKey W k = Ok a ->
  fst (startup W en s)
  = Ok (mkCtx en kb ab kv av (arbitrumSepolia W)
          (mkPublicClient (arbitrumSepolia W) (http (PARENT_CHAIN_RPC en)))
          (mkAccount a k)
          (mkWalletClient (mkAccount a k) (arbitrumSepolia W)
             (http (PARENT_CHAIN_RPC en)))).
Proof.
  destruct en as [dk' fee' rpc bp va]. unfold validator_draw. cbn.
  intros -> -> Hkb Hab Hkv Hav Hk Ha.
  destruct bp as [bp | ]; destruct va as [va | ]; cbn in Hkb, Hkv;
    read_fallbackKey Hkb;
    cbn in Hkv; rewrite ?Nat.add_0_r, ?Nat.add_1_r in Hkv;
    read_fallbackKey Hkv.
  all: run_with_answers.
  all: reflexivity.
Qed.

(** A run that gets through [startup] and the configuration builds the
    deployment request and ends on the keyset request. *)
Lemma program_builds_both_requests en ctx s1 cfg s0 :
  startup W en initial = (Ok ctx, s1) ->
  prepareConfig W ctx s1 = (Ok cfg, s0) ->
  In (Called (CreateRollupPrepareTransactionRequest
                (deploymentArgs ctx (CUSTOM_FEE_TOKEN_ADDRESS (env ctx)) cfg)))
     (trace (snd (program W en initial))) /\
  exists pre,
    trace (snd (program W en initial))
    = pre ++ [Called (SetValidKeysetPrepareTransactionRequest (keysetArgs ctx))].
Proof.
  intros Hrun Hcfg. rewrite program_unfold, Hrun.
  destruct (deploymentBody W ctx (CUSTOM_FEE_TOKEN_ADDRESS (env ctx)) cfg s0)
    as [r s2] eqn:Hdep.
  destruct (main_after_config W ctx s1 cfg s0 r s2 Hcfg Hdep) as (n & E).
  rewrite E. cbn [snd trace]. split.
  - apply in_or_app. left.
    assert (Hin : exists l,
               trace s2
               = trace s0
                 ++ Called (CreateRollupPrepareTransactionRequest
                              (deploymentArgs ctx
                                 (CUSTOM_FEE_TOKEN_ADDRESS (env ctx)) cfg)) :: l).
    { revert Hdep. unfold_script. unfold_monad. cbn.
      repeat (destruct_scrutinee; cbn).
      all: intros H; inversion H; subst; clear H; cbn.
      all: repeat rewrite <- app_assoc; cbn; eexists; reflexivity. }
    destruct Hin as (l & ->). apply in_or_app. right. now left.
  - exists (trace s2 ++ caught r). now rewrite app_assoc.
Qed.

End Progress.

(** ** The deployment phase and the keyset phase *)

(** C1.  Once [main] has entered the first [try] block, whatever the
    block does -- it completes, or request construction, submission,
    the confirmation wait or receipt parsing throws -- [main] goes on
    to the keyset phase and ends normally: the trace of the run is the
    trace of the block, then the [console.error] line when the block
    threw, then the call that builds the keyset request. *)
Theorem deployment_outcome_never_skips_keyset_phase
  (W : World) (ctx : Ctx) (s : State) (cfg : RollupConfig) (s0 : State)
  (r : Result unit) (s1 : State) :
  prepareConfig W ctx s = (Ok cfg, s0) ->
  deploymentBody W ctx (CUSTOM_FEE_TOKEN_ADDRESS (env ctx)) cfg s0 = (r, s1) ->
  exists s2,
    main W ctx s = (Ok tt, s2) /\
    trace s2
    = trace s1
      ++ match r with
         | Ok _ => []
         | Throw e =>
             [ConsoleError ("Rollup creation failed with error: " ++ e)%string]
         end
      ++ [Called (SetValidKeysetPrepareTransactionRequest (keysetArgs ctx))].
Proof.
  intros Hcfg Hdep.
  destruct (main_after_config W ctx s cfg s0 r s1 Hcfg Hdep) as (n & E).
  eexists. split; [exact E | ]. cbn. now destruct r.
Qed.

Lemma deployment_outcome_never_skips_keyset_phase_witness :
  exists s2,
    main sendFailWorld sampleCtx initial = (Ok tt, s2) /\
    In (ConsoleError "Rollup creation failed with error: Error: transport error")
       (trace s2) /\
    In (Called (SetValidKeysetPrepareTransactionRequest (keysetArgs sampleCtx)))
       (trace s2).
Proof.
  destruct (deployment_outcome_never_skips_keyset_phase
              sendFailWorld sampleCtx initial
              (mkRollupConfig 1000 "addr-of-0xd1" "{}" [])
              (snd (prepareConfig sendFailWorld sampleCtx initial))
              (Throw "Error: transport error")
              (snd (deploymentBody sendFailWorld sampleCtx
                      (CUSTOM_FEE_TOKEN_ADDRESS (env sampleCtx))
                      (mkRollupConfig 1000 "addr-of-0xd1" "{}" [])
                      (snd (prepareConfig sendFailWorld sampleCtx initial))))
              eq_refl eq_refl) as (s2 & Hmain & Htrace).
  exists s2. split; [exact Hmain | ].
  rewrite Htrace. split; apply in_or_app; right; cbn; auto.
Defined.

(** C2.  In every run, every call of
    [setValidKeysetPrepareTransactionRequest] receives as [coreContracts]
    the pair of the two literal addresses; the world, and with it the
    contracts that the deployment receipt yields, has no part in it.
    And the call is made: a run that gets through [startup] and the
    configuration of [main] ends on this call, with this pair. *)
Theorem keyset_phase_uses_fixed_addresses (W : World) (en : Env) :
  Forall
    (fun e =>
       forall a,
         e = Called (SetValidKeysetPrepareTransactionRequest a) ->
         sk_coreContracts a
         = {| upgradeExecutor := "0x15b5BDf7a5e0305B9a4bE413383C9b1500C8FCF2";
              sequencerInbox := "0x6c97864CE4bEf387dE0b3310A44230f7E3F1be0D" |})
    (trace (snd (program W en initial)))
  /\
  (forall ctx s1 cfg s0,
      startup W en initial = (Ok ctx, s1) ->
      prepareConfig W ctx s1 = (Ok cfg, s0) ->
      exists pre a,
        trace (snd (program W en initial))
        = pre ++ [Called (SetValidKeysetPrepareTransactionRequest a)] /\
        sk_coreContracts a
        = {| upgradeExecutor := "0x15b5BDf7a5e0305B9a4bE413383C9b1500C8FCF2";
             sequencerInbox := "0x6c97864CE4bEf387dE0b3310A44230f7E3F1be0D" |}).
Proof.
  split.
  - apply (emits_initial unit keyset_addresses_fixed).
    apply program_emits.
    + apply startup_emits_calls; unfold keyset_addresses_fixed; intros; discriminate.
    + intros ctx _ _ _. apply main_keyset_addresses.
  - intros ctx s1 cfg s0 Hrun Hcfg.
    destruct (program_builds_both_requests W en ctx s1 cfg s0 Hrun Hcfg)
      as (_ & pre & E).
    exists pre, (keysetArgs ctx). split; [exact E | reflexivity].
Qed.

Lemma keyset_phase_uses_fixed_addresses_witness :
  exists pre a,
    trace (snd (program okWorld minimalEnv initial))
    = pre ++ [Called (SetValidKeysetPrepareTransactionRequest a)] /\
    sk_coreContracts a
    = {| upgradeExecutor := "0x15b5BDf7a5e0305B9a4bE413383C9b1500C8FCF2";
         sequencerInbox := "0x6c97864CE4bEf387dE0b3310A44230f7E3F1be0D" |} /\
    In (Called (GetCoreContracts sampleReceipt))
       (trace (snd (program okWorld minimalEnv initial))) /\
    getCoreContracts_of okWorld sampleReceipt = Ok sampleContracts /\
    upgradeExecutor (sk_coreContracts a) <> cc_upgradeExecutor sampleContracts /\
    sequencerInbox (sk_coreContracts a) <> cc_sequencerInbox sampleContracts.
Proof.
  destruct (proj2 (keyset_phase_uses_fixed_addresses okWorld minimalEnv)
              sampleCtx (snd (startup okWorld minimalEnv initial))
              (mkRollupConfig 1002 "addr-of-0xd1" "{}" [])
              (snd (prepareConfig okWorld sampleCtx
                      (snd (startup okWorld minimalEnv initial))))
              eq_refl eq_refl)
    as (pre & a & E & Ha).
  exists pre, a. split; [exact E | ]. split; [exact Ha | ].
  split; [vm_compute; tauto | ]. split; [reflexivity | ].
  rewrite Ha. split; discriminate.
Defined.

(** The run of [okWorld]: the receipt yields the upgrade executor
    [0xCCC] and the sequencer inbox [0xDDD], and the keyset request is
    built for the two literal addresses all the same. *)
Example keyset_phase_ignores_receipt_contracts :
  In (Called (GetCoreContracts (mkReceipt "0xhash" [])))
     (trace (snd (program okWorld minimalEnv initial))) /\
  getCoreContracts_of okWorld (mkReceipt "0xhash" []) = Ok sampleContracts /\
  In (Called (SetValidKeysetPrepareTransactionRequest (keysetArgs sampleCtx)))
     (trace (snd (program okWorld minimalEnv initial))) /\
  upgradeExecutor (sk_coreContracts (keysetArgs sampleCtx))
    <> cc_upgradeExecutor sampleContracts.
Proof.
  split; [vm_compute; tauto | ].
  split; [reflexivity | ].
  split; [vm_compute; tauto | discriminate].
Qed.

(** C3.  The run in which every external call succeeds: the keyset
    request is built, it is the last event of the run, and the only
    transaction sent in the whole run is the deployment transaction.
    The request that the keyset phase builds is never submitted. *)
Theorem keyset_request_is_built_but_not_sent :
  exists pre,
    program okWorld minimalEnv initial
    = (Ok tt,
       mkState
         (pre ++ [Called (SetValidKeysetPrepareTransactionRequest
                            (keysetArgs sampleCtx))])
         3) /\
    filter is_send pre
    = [Called (SendTransaction (walletClient sampleCtx)
                 (mkTxRequest 421614 "0xRollupCreator" "0xcreate"))] /\
    setValidKeysetPrepareTransactionRequest_of okWorld (keysetArgs sampleCtx)
    = Ok (mkTxRequest 421614 "0xUpgradeExecutor" "0xkeyset").
Proof.
  exists (removelast (trace (snd (program okWorld minimalEnv initial)))).
  split; [vm_compute; reflexivity | ].
  split; vm_compute; reflexivity.
Qed.

(** C4.  The run in which building the keyset request throws: the
    error is caught, the run ends normally, the failing call is the
    last event of the run and no [console.error] line (nor any other
    console line) follows it: the error is dropped without a trace. *)
Theorem keyset_error_is_swallowed_silently :
  setValidKeysetPrepareTransactionRequest_of keysetFailWorld (keysetArgs sampleCtx)
  = Throw "Error: keyset request failed" /\
  exists pre,
    program keysetFailWorld minimalEnv initial
    = (Ok tt,
       mkState
         (pre ++ [Called (SetValidKeysetPrepareTransactionRequest
                            (keysetArgs sampleCtx))])
         3) /\
    forall m,
      ~ In (ConsoleError m) (trace (snd (program keysetFailWorld minimalEnv initial))).
Proof.
  split; [reflexivity | ].
  exists (removelast (trace (snd (program keysetFailWorld minimalEnv initial)))).
  split; [vm_compute; reflexivity | ].
  intros m. vm_compute. intuition discriminate.
Qed.

(** C8.  When [main] has prepared the configuration and the five calls
    of the first [try] block succeed, the events from there on are, in
    this order: the deployment request is built, the transaction is
    sent through the wallet client, its receipt is awaited, the receipt
    is parsed into the core contracts, the rollup address and the inbox
    address of these contracts are logged, and then the keyset request
    is built. *)
Theorem successful_deployment_order
  (W : World) (ctx : Ctx) (s : State) (cfg : RollupConfig) (s0 : State)
  (txRequest : TxRequest) (txHash : Hex) (receipt txReceipt : Receipt)
  (coreContracts : CoreContracts) :
  prepareConfig W ctx s = (Ok cfg, s0) ->
  createRollupPrepareTransactionRequest_of W
    (deploymentArgs ctx (CUSTOM_FEE_TOKEN_ADDRESS (env ctx)) cfg) = Ok txRequest ->
  sendTransaction_of W (walletClient ctx) txRequest = Ok txHash ->
  waitForTransactionReceipt_of W (parentChainPublicClient ctx) txHash = Ok receipt ->
  createRollupPrepareTransactionReceipt_of W receipt = Ok txReceipt ->
  getCoreContracts_of W txReceipt = Ok coreContracts ->
  exists s2,
    main W ctx s = (Ok tt, s2) /\
    trace s2
    = trace s0 ++
      [ Called (CreateRollupPrepareTransactionRequest
                  (deploymentArgs ctx (CUSTOM_FEE_TOKEN_ADDRESS (env ctx)) cfg));
        ConsoleLog [LStr "Transaction request prepared successfully"];
        ConsoleLog [LStr "Parent Chain ID:"; LNum (chainId txRequest)];
        ConsoleLog [LStr "Creating rollup..."];
        Called (SendTransaction (walletClient ctx) txRequest);
        ConsoleLog [LStr "Transaction sent. Waiting for confirmation..."];
        Called (WaitForTransactionReceipt (parentChainPublicClient ctx) txHash);
        ConsoleLog [LStr ("Transaction confirmed: " ++ transactionHash receipt)%string];
        Called (CreateRollupPrepareTransactionReceipt receipt);
        Called (GetCoreContracts txReceipt);
        ConsoleLog [LStr "Core contracts:"; LCoreContracts coreContracts];
        ConsoleLog [LStr ("Rollup address: " ++ rollup coreContracts)%string];
        ConsoleLog [LStr ("Inbox address: " ++ inbox coreContracts)%string];
        Called (SetValidKeysetPrepareTransactionRequest (keysetArgs ctx)) ].
Proof.
  intros Hcfg H1 H2 H3 H4 H5.
  pose proof (deploymentBody_success W ctx _ cfg s0 _ _ _ _ _ H1 H2 H3 H4 H5) as Hdep.
  destruct (main_after_config W ctx s cfg s0 _ _ Hcfg Hdep) as (n & E).
  eexists. split; [exact E | ]. cbn. now rewrite <- app_assoc.
Qed.

Lemma successful_deployment_order_witness :
  exists s2,
    main okWorld sampleCtx initial = (Ok tt, s2) /\
    In (ConsoleLog [LStr "Rollup address: 0xAAA"]) (trace s2) /\
    In (ConsoleLog [LStr "Inbox address: 0xBBB"]) (trace s2) /\
    last (trace s2) (ConsoleWarn EmptyString)
    = Called (SetValidKeysetPrepareTransactionRequest (keysetArgs sampleCtx)).
Proof.
  destruct (successful_deployment_order
              okWorld sampleCtx initial
              (mkRollupConfig 1000 "addr-of-0xd1" "{}" [])
              (snd (prepareConfig okWorld sampleCtx initial))
              (mkTxRequest 421614 "0xRollupCreator" "0xcreate")
              "0xhash" (mkReceipt "0xhash" []) (mkReceipt "0xhash" [])
              sampleContracts
              eq_refl eq_refl eq_refl eq_refl eq_refl eq_refl)
    as (s2 & Hmain & Htrace).
  exists s2. split; [exact Hmain | ].
  rewrite Htrace. cbn. repeat split; auto 20.
Defined.

(** ** Configuration and identities *)

(** C5.  Without [DEPLOYER_PRIVATE_KEY], or without
    [CUSTOM_FEE_TOKEN_ADDRESS], the program throws the error of the
    corresponding guard and the state is the one it started from: no
    event at all has happened, so no client has been created and no
    call has gone to the network. *)
Theorem missing_required_variable_throws_before_any_binding
  (W : World) (en : Env) (s : State) :
  DEPLOYER_PRIVATE_KEY en = None \/ CUSTOM_FEE_TOKEN_ADDRESS en = None ->
  (exists e,
      program W en s = (Throw e, s) /\
      (e = missing_deployer_key \/ e = missing_fee_token)) /\
  Forall (fun e => is_transport_binding e = false /\ is_network_call e = false)
         (trace (snd (program W en initial))).
Proof.
  intros H.
  assert (Hrun : forall st, exists e,
             program W en st = (Throw e, st) /\
             (e = missing_deployer_key \/ e = missing_fee_token)).
  { intros st. rewrite program_unfold.
    destruct (DEPLOYER_PRIVATE_KEY en) as [dk | ] eqn:Hd.
    - destruct H as [H | H]; [discriminate | ].
      rewrite (startup_no_fee_token W en st dk Hd H). eauto.
    - rewrite (startup_no_deployer_key W en st Hd). eauto. }
  split; [apply Hrun | ].
  destruct (Hrun initial) as (e & E & _). rewrite E. constructor.
Qed.

Lemma missing_required_variable_throws_before_any_binding_witness :
  exists e,
    program okWorld noDeployerEnv initial = (Throw e, initial) /\
    (e = missing_deployer_key \/ e = missing_fee_token).
Proof.
  exact (proj1 (missing_required_variable_throws_before_any_binding
                  okWorld noDeployerEnv initial (or_introl eq_refl))).
Defined.

(** C6.  [withFallbackPrivateKey]: on [undefined] and on the empty
    string it calls [generatePrivateKey] and returns the key of a new
    random draw; on every other string [x] it calls
    [sanitizePrivateKey(x)] and returns what that returns, or throws
    what that throws, without drawing a key. *)
Theorem withFallbackPrivateKey_spec
  (W : World) (privateKey : option string) (s : State) :
  (privateKey = None \/ privateKey = Some EmptyString ->
   withFallbackPrivateKey W privateKey s
   = (Ok (generatePrivateKey_at W (draws s)),
      mkState (trace s ++ [Called GeneratePrivateKey]) (S (draws s))))
  /\
  (forall x,
      privateKey = Some x -> x <> EmptyString ->
      withFallbackPrivateKey W privateKey s
      = (sanitizePrivateKey_of W x,
         mkState (trace s ++ [Called (SanitizePrivateKey x)]) (draws s))).
Proof.
  split.
  - intros [-> | ->]; reflexivity.
  - intros x -> Hx. unfold withFallbackPrivateKey.
    apply String.eqb_neq in Hx. rewrite Hx.
    unfold sanitizePrivateKey, call. unfold_monad. cbn.
    now destruct (sanitizePrivateKey_of W x).
Qed.

Lemma withFallbackPrivateKey_spec_witness :
  withFallbackPrivateKey okWorld (Some EmptyString) initial
  = (Ok "0xk0", mkState [Called GeneratePrivateKey] 1) /\
  withFallbackPrivateKey okWorld (Some "b1") initial
  = (Ok "0xb1", mkState [Called (SanitizePrivateKey "b1")] 0).
Proof.
  split.
  - exact (proj1 (withFallbackPrivateKey_spec okWorld (Some EmptyString) initial)
                 (or_intror eq_refl)).
  - refine (proj2 (withFallbackPrivateKey_spec okWorld (Some "b1") initial)
                  "b1" eq_refl _).
    discriminate.
Defined.

(** C7.  In a run that passes the two guards: when [PARENT_CHAIN_RPC]
    is [undefined] or empty, the warning is written, and the public
    client and the wallet client that [startup] builds both talk to the
    default endpoint of the chain; when it is a non-empty url, no
    warning is written and both clients talk to that url.  In both
    cases the two clients are created with the same chain and the same
    transport.  And the clients are built: when the three keys of the
    run are accepted -- each optional key resolves to a key that has an
    address, and so does the sanitized deployer key -- [startup]
    returns, the creation of both clients is in its trace, and the
    endpoint of both is the one [PARENT_CHAIN_RPC] selects. *)
Theorem parent_chain_rpc_warning_and_endpoint
  (W : World) (en : Env) (dk fee : string) (r : Result Ctx) (s' : State) :
  DEPLOYER_PRIVATE_KEY en = Some dk ->
  CUSTOM_FEE_TOKEN_ADDRESS en = Some fee ->
  startup W en initial = (r, s') ->
  (PARENT_CHAIN_RPC en = None \/ PARENT_CHAIN_RPC en = Some EmptyString ->
   In (ConsoleWarn rpc_warning) (trace s') /\
   forall ctx, r = Ok ctx ->
     pc_endpoint (parentChainPublicClient ctx) = chain_default_rpc (arbitrumSepolia W) /\
     wc_endpoint (walletClient ctx) = chain_default_rpc (arbitrumSepolia W))
  /\
  (forall url,
      PARENT_CHAIN_RPC en = Some url -> url <> EmptyString ->
      (forall m, ~ In (ConsoleWarn m) (trace s')) /\
      forall ctx, r = Ok ctx ->
        pc_endpoint (parentChainPublicClient ctx) = url /\
        wc_endpoint (walletClient ctx) = url)
  /\
  (forall ctx, r = Ok ctx ->
     In (Called (CreatePublicClient (pc_chain (parentChainPublicClient ctx))
                   (pc_transport (parentChainPublicClient ctx))))
        (trace s') /\
     In (Called (CreateWalletClient (deployer ctx) (wc_chain (walletClient ctx))
                   (wc_transport (walletClient ctx))))
        (trace s') /\
     pc_chain (parentChainPublicClient ctx) = wc_chain (walletClient ctx) /\
     pc_transport (parentChainPublicClient ctx) = wc_transport (walletClient ctx))
  /\
  (forall kb ab kv av k a,
      fallbackKey W (BATCH_POSTER_PRIVATE_KEY en) 0 = Ok kb ->
      addressOfKey W kb = Ok ab ->
      fallbackKey W (VALIDATOR_PRIVATE_KEY en) (validator_draw en 0) = Ok kv ->
      addressOfKey W kv = Ok av ->
      sanitizePrivateKey_of W dk = Ok k ->
      addressOfKey W k = Ok a ->
      exists ctx,
        r = Ok ctx /\
        In (Called (CreatePublicClient (arbitrumSepolia W)
                      (http (PARENT_CHAIN_RPC en))))
           (trace s') /\
        In (Called (CreateWalletClient (mkAccount a k) (arbitrumSepolia W)
                      (http (PARENT_CHAIN_RPC en))))
           (trace s') /\
        parentChainPublicClient ctx
        = mkPublicClient (arbitrumSepolia W) (http (PARENT_CHAIN_RPC en)) /\
        walletClient ctx
        = mkWalletClient (mkAccount a k) (arbitrumSepolia W)
            (http (PARENT_CHAIN_RPC en)) /\
        endpoint (arbitrumSepolia W) (http (PARENT_CHAIN_RPC en))
        = match PARENT_CHAIN_RPC en with
          | None => chain_default_rpc (arbitrumSepolia W)
          | Some url =>
              if String.eqb url EmptyString
              then chain_default_rpc (arbitrumSepolia W) else url
          end).
Proof.
  intros Hd Hf Hrun.
  assert (Hok : forall ctx, r = Ok ctx ->
            parentChainPublicClient ctx
              = mkPublicClient (arbitrumSepolia W) (http (PARENT_CHAIN_RPC en)) /\
            walletClient ctx
              = mkWalletClient (deployer ctx) (arbitrumSepolia W)
                  (http (PARENT_CHAIN_RPC en)) /\
            In (Called (CreatePublicClient (arbitrumSepolia W)
                          (http (PARENT_CHAIN_RPC en)))) (trace s') /\
            In (Called (CreateWalletClient (deployer ctx) (arbitrumSepolia W)
                          (http (PARENT_CHAIN_RPC en)))) (trace s')).
  { intros ctx ->.
    destruct (startup_ok W en initial ctx s' Hrun)
      as (_ & _ & Hpc & Hwc & _ & _ & _ & _ & Hin1 & Hin2).
    auto. }
  split; [ | split; [ | split ] ].
  - intros Hrpc. split.
    + assert (Hu : undefined_or_empty (PARENT_CHAIN_RPC en) = true)
        by (destruct Hrpc as [-> | ->]; reflexivity).
      destruct (startup_warns W en initial dk fee r s' Hd Hf Hu Hrun) as (l & E).
      rewrite E. apply in_or_app. right. now left.
    + intros ctx Hr. destruct (Hok ctx Hr) as (Hpc & Hwc & _).
      unfold pc_endpoint, wc_endpoint. rewrite Hpc, Hwc. cbn.
      destruct Hrpc as [-> | ->]; auto.
  - intros url Hrpc Hurl. apply String.eqb_neq in Hurl. split.
    + assert (Hu : undefined_or_empty (PARENT_CHAIN_RPC en) = false)
        by (rewrite Hrpc; exact Hurl).
      destruct (emits_run _ _ _ _ _ _ (startup_no_warning W en Hu) Hrun)
        as (l & E & F).
      intros m Hin. rewrite E in Hin. cbn in Hin.
      rewrite Forall_forall in F. exact (F _ Hin m eq_refl).
    + intros ctx Hr. destruct (Hok ctx Hr) as (Hpc & Hwc & _).
      unfold pc_endpoint, wc_endpoint. rewrite Hpc, Hwc. cbn.
      rewrite Hrpc. cbn. rewrite Hurl. auto.
  - intros ctx Hr. destruct (Hok ctx Hr) as (Hpc & Hwc & Hin1 & Hin2).
    rewrite Hpc, Hwc. cbn. auto.
  - intros kb ab kv av k a Hkb Hab Hkv Hav Hk Ha.
    pose proof (startup_returns W en initial dk fee kb ab kv av k a
                  Hd Hf Hkb Hab Hkv Hav Hk Ha) as Hret.
    rewrite Hrun in Hret. cbn in Hret. eexists. split; [exact Hret | ].
    destruct (Hok _ Hret) as (Hpc & Hwc & Hin1 & Hin2). cbn in *.
    repeat split; auto.
Qed.

Lemma parent_chain_rpc_warning_and_endpoint_witness :
  (In (ConsoleWarn rpc_warning) (trace (snd (startup okWorld minimalEnv initial))) /\
   exists ctx,
     fst (startup okWorld minimalEnv initial) = Ok ctx /\
     In (Called (CreatePublicClient (arbitrumSepolia okWorld) (http None)))
        (trace (snd (startup okWorld minimalEnv initial))) /\
     In (Called (CreateWalletClient (mkAccount "addr-of-0xd1" "0xd1")
                   (arbitrumSepolia okWorld) (http None)))
        (trace (snd (startup okWorld minimalEnv initial))) /\
     pc_endpoint (parentChainPublicClient ctx)
       = "https://sepolia-rollup.arbitrum.io/rpc" /\
     wc_endpoint (walletClient ctx)
       = "https://sepolia-rollup.arbitrum.io/rpc")
  /\
  ((forall m, ~ In (ConsoleWarn m) (trace (snd (startup okWorld fullEnv initial)))) /\
   exists ctx,
     fst (startup okWorld fullEnv initial) = Ok ctx /\
     In (Called (CreatePublicClient (arbitrumSepolia okWorld)
                   (http (Some "https://rpc.example"))))
        (trace (snd (startup okWorld fullEnv initial))) /\
     In (Called (CreateWalletClient (mkAccount "addr-of-0xd1" "0xd1")
                   (arbitrumSepolia okWorld) (http (Some "https://rpc.example"))))
        (trace (snd (startup okWorld fullEnv initial))) /\
     pc_endpoint (parentChainPublicClient ctx) = "https://rpc.example" /\
     wc_endpoint (walletClient ctx) = "https://rpc.example").
Proof.
  split.
  - destruct (parent_chain_rpc_warning_and_endpoint
                okWorld minimalEnv "d1" "0xFEE0000000000000000000000000000000000001"
                (fst (startup okWorld minimalEnv initial))
                (snd (startup okWorld minimalEnv initial))
                eq_refl eq_refl eq_refl) as (Hunset & _ & _ & Hbuilt).
    destruct (Hunset (or_introl eq_refl)) as (Hwarn & Hend).
    destruct (Hbuilt "0xk0" "addr-of-0xk0" "0xk1" "addr-of-0xk1" "0xd1" "addr-of-0xd1"
                eq_refl eq_refl eq_refl eq_refl eq_refl eq_refl)
      as (ctx & Hctx & Hin1 & Hin2 & _).
    split; [exact Hwarn | ]. exists ctx.
    split; [exact Hctx | ]. split; [exact Hin1 | ]. split; [exact Hin2 | ].
    exact (Hend ctx Hctx).
  - destruct (parent_chain_rpc_warning_and_endpoint
                okWorld fullEnv "0xd1" "0xFEE0000000000000000000000000000000000001"
                (fst (startup okWorld fullEnv initial))
                (snd (startup okWorld fullEnv initial))
                eq_refl eq_refl eq_refl) as (_ & Hset & _ & Hbuilt).
    assert (Hne : "https://rpc.example" <> EmptyString) by discriminate.
    destruct (Hset "https://rpc.example" eq_refl Hne) as (Hnowarn & Hend).
    destruct (Hbuilt "0xb1" "addr-of-0xb1" "0xv1" "addr-of-0xv1" "0xd1" "addr-of-0xd1"
                eq_refl eq_refl eq_refl eq_refl eq_refl eq_refl)
      as (ctx & Hctx & Hin1 & Hin2 & _).
    split; [exact Hnowarn | ]. exists ctx.
    split; [exact Hctx | ]. split; [exact Hin1 | ]. split; [exact Hin2 | ].
    exact (Hend ctx Hctx).
Defined.

(** C9.  The two guards test for [undefined] only.  When both required
    variables are strings -- whatever strings, the empty string
    included -- [startup] runs past the guards (the trace is not
    empty); the creation of the public client is followed by
    [sanitizePrivateKey] called on the deployer string as it is; and
    every deployment request of the run carries the fee token string as
    it is.  The optional keys differ: on the empty string
    [withFallbackPrivateKey] generates a key and sanitizes nothing.
    And these calls are made: when the two optional keys resolve to
    keys that have an address, the public client is created and
    [sanitizePrivateKey] is called on the deployer string; and a run
    that gets through [startup] and the configuration of [main] builds
    the deployment request with the fee token string. *)
Theorem required_variables_are_not_checked_for_emptiness
  (W : World) (en : Env) (dk fee : string) :
  DEPLOYER_PRIVATE_KEY en = Some dk ->
  CUSTOM_FEE_TOKEN_ADDRESS en = Some fee ->
  (exists e l, trace (snd (startup W en initial)) = e :: l) /\
  followed_by is_create_public_client (is_sanitize_of dk)
    (trace (snd (startup W en initial))) = true /\
  Forall
    (fun e =>
       forall a,
         e = Called (CreateRollupPrepareTransactionRequest a) ->
         cr_nativeToken a = Some fee)
    (trace (snd (program W en initial))) /\
  (forall s,
      withFallbackPrivateKey W (Some EmptyString) s = generatePrivateKey W s) /\
  (forall kb ab kv av,
      fallbackKey W (BATCH_POSTER_PRIVATE_KEY en) 0 = Ok kb ->
      addressOfKey W kb = Ok ab ->
      fallbackKey W (VALIDATOR_PRIVATE_KEY en) (validator_draw en 0) = Ok kv ->
      addressOfKey W kv = Ok av ->
      In (Called (CreatePublicClient (arbitrumSepolia W)
                    (http (PARENT_CHAIN_RPC en))))
         (trace (snd (startup W en initial))) /\
      In (Called (SanitizePrivateKey dk)) (trace (snd (startup W en initial)))) /\
  (forall ctx s1 cfg s0,
      startup W en initial = (Ok ctx, s1) ->
      prepareConfig W ctx s1 = (Ok cfg, s0) ->
      In (Called (CreateRollupPrepareTransactionRequest
                    (deploymentArgs ctx (Some fee) cfg)))
         (trace (snd (program W en initial)))).
Proof.
  intros Hd Hf.
  split; [ | split; [ | split; [ | split; [ | split ] ] ] ].
  - destruct (startup W en initial) as [r s'] eqn:Hrun. cbn [snd].
    destruct (startup_past_guards W en initial dk fee r s' Hd Hf Hrun)
      as (e & l & E).
    exists e, l. exact E.
  - destruct (startup W en initial) as [r s'] eqn:Hrun. cbn [snd].
    exact (startup_sanitizes_deployer_key W en dk r s' Hd Hrun).
  - apply (emits_initial unit (native_token_is (Some fee))).
    apply program_emits.
    + apply startup_emits_calls; unfold native_token_is; intros; discriminate.
    + intros ctx s0 s1 Hok.
      destruct (startup_ok W en s0 ctx s1 Hok) as (Henv & _).
      rewrite <- Hf, <- Henv. apply main_native_token.
  - reflexivity.
  - intros kb ab kv av Hkb Hab Hkv Hav.
    destruct (startup_reaches_deployer_key W en initial dk fee kb ab kv av
                Hd Hf Hkb Hab Hkv Hav) as (l & E & Hpc & Hsan).
    rewrite E. cbn. auto.
  - intros ctx s1 cfg s0 Hrun Hcfg.
    destruct (program_builds_both_requests W en ctx s1 cfg s0 Hrun Hcfg)
      as (Hreq & _).
    destruct (startup_ok W en initial ctx s1 Hrun) as (Henv & _).
    rewrite Henv, Hf in Hreq. exact Hreq.
Qed.

Lemma required_variables_are_not_checked_for_emptiness_witness :
  (exists e l, trace (snd (startup okWorld blankEnv initial)) = e :: l) /\
  followed_by is_create_public_client (is_sanitize_of EmptyString)
    (trace (snd (startup okWorld blankEnv initial))) = true /\
  Forall
    (fun e =>
       forall a,
         e = Called (CreateRollupPrepareTransactionRequest a) ->
         cr_nativeToken a = Some EmptyString)
    (trace (snd (program okWorld blankEnv initial))) /\
  (forall s,
      withFallbackPrivateKey okWorld (Some EmptyString) s
      = generatePrivateKey okWorld s) /\
  In (Called (CreatePublicClient (arbitrumSepolia okWorld) (http (Some EmptyString))))
     (trace (snd (startup okWorld blankEnv initial))) /\
  In (Called (SanitizePrivateKey EmptyString))
     (trace (snd (startup okWorld blankEnv initial))) /\
  In (Called (CreateRollupPrepareTransactionRequest
                (deploymentArgs blankCtx (Some EmptyString)
                   (mkRollupConfig 1002 "addr-of-0x" "{}" []))))
     (trace (snd (program okWorld blankEnv initial))).
Proof.
  destruct (required_variables_are_not_checked_for_emptiness
              okWorld blankEnv EmptyString EmptyString eq_refl eq_refl)
    as (H1 & H2 & H3 & H4 & H5 & H6).
  destruct (H5 "0xk0" "addr-of-0xk0" "0xk1" "addr-of-0xk1"
              eq_refl eq_refl eq_refl eq_refl) as (Hpc & Hsan).
  pose proof (H6 blankCtx (snd (startup okWorld blankEnv initial))
                (mkRollupConfig 1002 "addr-of-0x" "{}" [])
                (snd (prepareConfig okWorld blankCtx
                        (snd (startup okWorld blankEnv initial))))
                eq_refl eq_refl) as Hreq.
  split; [exact H1 | ]. split; [exact H2 | ]. split; [exact H3 | ].
  split; [exact H4 | ]. split; [exact Hpc | ]. split; [exact Hsan | exact Hreq].
Defined.

(** The run of [okWorld] with every variable empty: both clients are
    created, [sanitizePrivateKey] receives the empty string and the
    deployment request is built with the empty string as fee token. *)
Example blank_environment_run :
  In (Called (SanitizePrivateKey EmptyString))
     (trace (snd (program okWorld blankEnv initial))) /\
  existsb is_create_public_client
     (trace (snd (program okWorld blankEnv initial))) = true /\
  existsb
    (fun e =>
       match e with
       | Called (CreateRollupPrepareTransactionRequest a) =>
           match cr_nativeToken a with
           | Some x => String.eqb x EmptyString
           | None => false
           end
       | _ => false
       end)
    (trace (snd (program okWorld blankEnv initial))) = true.
Proof.
  split; [vm_compute; tauto | ].
  split; vm_compute; reflexivity.
Qed.


(** The run of [okWorld] with every variable set: the one transaction
    of the run is sent by the wallet client that holds the deployer
    key. *)
Example full_environment_signers :
  map signing_key
      (filter (fun e => match signing_key e with Some _ => true | None => false end)
              (trace (snd (program okWorld fullEnv initial))))
  = [Some "0xd1"; Some "0xd1"].
Proof. vm_compute. reflexivity. Qed.

(** ** Further properties of the run *)

Section MoreRun.

Variable W : World.

Lemma Forall_filter_nil (f : Event -> bool) l :
  Forall (fun e => f e = false) l -> filter f l = [].
Proof.
  induction 1 as [ | e l He _ IH]; cbn; [reflexivity | ]. now rewrite He.
Qed.

(** [startup] binds clients and derives keys; it does not call the
    parent chain. *)
Lemma startup_no_network en :
  emits (fun e => is_network_call e = false) (startup W en).
Proof. apply startup_emits_calls; intros; reflexivity. Qed.

(** The configuration calls of [main] do not go to the network. *)
Lemma prepareConfig_no_network ctx :
  emits (fun e => is_network_call e = false) (prepareConfig W ctx).
Proof. unfold_script. repeat emits_step; reflexivity. Qed.

(** An error of the configuration calls is not caught. *)
Lemma main_config_error ctx s e s0 :
  prepareConfig W ctx s = (Throw e, s0) -> main W ctx s = (Throw e, s0).
Proof. intros H. unfold main. unfold bind at 1. now rewrite H. Qed.

(** Every run of [main], event by event: what it adds to the trace
    holds at most one transaction and at most four calls to the
    network. *)
Lemma main_call_bounds ctx s :
  exists l,
    trace (snd (main W ctx s)) = trace s ++ l /\
    length (filter is_send l) <= 1 /\
    length (filter is_wait l) <= 1 /\
    length (filter is_network_call l) <= 4 /\
    length (filter is_deployment_request l) <= 1 /\
    length (filter is_keyset_request l) <= 1.
Proof.
  run_startup.
  all: first [ exists []; split; [ now rewrite app_nil_r | cbn; lia ]
             | repeat rewrite <- app_assoc; cbn;
               eexists; split; [ reflexivity | cbn; lia ] ].
Qed.

Lemma is_send_network e : is_network_call e = false -> is_send e = false.
Proof. destruct e as [ | | | []]; cbn; congruence. Qed.

Lemma is_wait_network e : is_network_call e = false -> is_wait e = false.
Proof. destruct e as [ | | | []]; cbn; congruence. Qed.

Lemma is_deployment_request_network e :
  is_network_call e = false -> is_deployment_request e = false.
Proof. destruct e as [ | | | []]; cbn; congruence. Qed.

Lemma is_keyset_request_network e :
  is_network_call e = false -> is_keyset_request e = false.
Proof. destruct e as [ | | | []]; cbn; congruence. Qed.

(** The events of a whole run: those of [startup], none of which goes
    to the network, then those of [main] when [startup] returned. *)
Lemma program_trace_split en :
  exists l1 l2,
    trace (snd (program W en initial)) = l1 ++ l2 /\
    trace (snd (startup W en initial)) = l1 /\
    Forall (fun e => is_network_call e = false) l1 /\
    length (filter is_send l2) <= 1 /\
    length (filter is_wait l2) <= 1 /\
    length (filter is_network_call l2) <= 4 /\
    length (filter is_deployment_request l2) <= 1 /\
    length (filter is_keyset_request l2) <= 1 /\
    (forall e, fst (startup W en initial) = Throw e -> l2 = []).
Proof.
  rewrite program_unfold.
  destruct (startup W en initial) as [[ctx | e] s1] eqn:Hrun;
    destruct (emits_run _ _ _ _ _ _ (startup_no_network en) Hrun)
      as (l1 & E1 & F1); cbn in E1.
  - destruct (main_call_bounds ctx s1) as (l & E & Hs & Hw & Hn & Hd & Hk).
    exists l1, l. rewrite E, E1. cbn. repeat split; auto. discriminate.
  - exists l1, []. cbn. rewrite E1, app_nil_r. cbn. repeat split; auto; lia.
Qed.

Lemma fallbackKey_generated x n :
  undefined_or_empty x = true ->
  fallbackKey W x n = Ok (generatePrivateKey_at W n).
Proof.
  unfold fallbackKey, withFallbackPrivateKey.
  destruct x as [x | ]; cbn; [ intros -> | ]; reflexivity.
Qed.

Lemma fallbackKey_sanitized x n :
  x <> EmptyString ->
  fallbackKey W (Some x) n = sanitizePrivateKey_of W x.
Proof.
  intros Hx. apply String.eqb_neq in Hx.
  unfold fallbackKey, withFallbackPrivateKey. rewrite Hx.
  unfold sanitizePrivateKey, call. unfold_monad. cbn.
  now destruct (sanitizePrivateKey_of W x).
Qed.

(** What a successful [startup] has called to obtain the keys. *)
Lemma startup_key_calls en s ctx s' :
  startup W en s = (Ok ctx, s') ->
  draws s' = draws s + missing_optional_keys en /\
  (exists l,
      trace s' = trace s ++ l /\
      length (filter is_generate l) = missing_optional_keys en /\
      length (filter is_sanitize l) = 3 - missing_optional_keys en) /\
  (undefined_or_empty (BATCH_POSTER_PRIVATE_KEY en) = true ->
   batchPosterPrivateKey ctx = generatePrivateKey_at W (draws s)) /\
  (forall x,
      BATCH_POSTER_PRIVATE_KEY en = Some x -> x <> EmptyString ->
      sanitizePrivateKey_of W x = Ok (batchPosterPrivateKey ctx)) /\
  (undefined_or_empty (VALIDATOR_PRIVATE_KEY en) = true ->
   validatorPrivateKey ctx
   = generatePrivateKey_at W
       (draws s + if undefined_or_empty (BATCH_POSTER_PRIVATE_KEY en)
                  then 1 else 0)) /\
  (forall x,
      VALIDATOR_PRIVATE_KEY en = Some x -> x <> EmptyString ->
      sanitizePrivateKey_of W x = Ok (validatorPrivateKey ctx)).
Proof.
  revert s ctx s'. destruct en as [dk fee rpc bp va]. intros s ctx s'.
  unfold missing_optional_keys.
  run_startup; try discriminate.
  all: intros H; inversion H; subst; clear H; cbn.
  all: repeat rewrite Nat.add_0_r.
  all: split; [ lia | ].
  all: split; [ repeat rewrite <- app_assoc; cbn; eexists;
                split; [ reflexivity | cbn; split; reflexivity ] | ].
  all: repeat split; intros; try discriminate; try congruence.
  all: repeat match goal with
         | H : Some _ = Some _ |- _ => inversion H; subst; clear H
         | H : ?x <> EmptyString, E : String.eqb ?x EmptyString = true |- _ =>
             apply String.eqb_eq in E; contradiction
         end; try congruence.
  all: try (f_equal; lia).
Qed.

(** The two optional keys of the context, as [fallbackKey] gives
    them. *)
Lemma startup_fallback_keys en s ctx s' :
  startup W en s = (Ok ctx, s') ->
  fallbackKey W (BATCH_POSTER_PRIVATE_KEY en) (draws s)
  = Ok (batchPosterPrivateKey ctx) /\
  fallbackKey W (VALIDATOR_PRIVATE_KEY en) (validator_draw en (draws s))
  = Ok (validatorPrivateKey ctx).
Proof.
  intros Hrun.
  destruct (startup_key_calls en s ctx s' Hrun)
    as (_ & _ & Hbg & Hbs & Hvg & Hvs).
  unfold validator_draw. split.
  - destruct (undefined_or_empty (BATCH_POSTER_PRIVATE_KEY en)) eqn:Hu.
    + rewrite (fallbackKey_generated _ _ Hu), (Hbg eq_refl). reflexivity.
    + destruct (BATCH_POSTER_PRIVATE_KEY en) as [x | ]; [ | discriminate ].
      cbn in Hu. apply String.eqb_neq in Hu.
      rewrite (fallbackKey_sanitized x _ Hu). exact (Hbs x eq_refl Hu).
  - destruct (undefined_or_empty (VALIDATOR_PRIVATE_KEY en)) eqn:Hu.
    + rewrite (fallbackKey_generated _ _ Hu), (Hvg eq_refl). reflexivity.
    + destruct (VALIDATOR_PRIVATE_KEY en) as [x | ]; [ | discriminate ].
      cbn in Hu. apply String.eqb_neq in Hu.
      rewrite (fallbackKey_sanitized x _ Hu). exact (Hvs x eq_refl Hu).
Qed.

End MoreRun.

(** ** No retry, no network before the clients *)

(** X1.  No call to the parent chain is repeated: in every run each
    of the four calls that go to the network -- building the deployment
    request, sending the transaction, awaiting its receipt, building
    the keyset request -- is made at most once, so at most four calls
    go to the parent chain. *)
Theorem run_sends_at_most_one_transaction (W : World) (en : Env) :
  length (filter is_send (trace (snd (program W en initial)))) <= 1 /\
  length (filter is_wait (trace (snd (program W en initial)))) <= 1 /\
  length (filter is_network_call (trace (snd (program W en initial)))) <= 4 /\
  length (filter is_deployment_request (trace (snd (program W en initial)))) <= 1 /\
  length (filter is_keyset_request (trace (snd (program W en initial)))) <= 1.
Proof.
  destruct (program_trace_split W en)
    as (l1 & l2 & E & _ & F1 & Hs & Hw & Hn & Hd & Hk & _).
  rewrite E. repeat rewrite filter_app, length_app.
  rewrite (Forall_filter_nil is_network_call l1 F1).
  rewrite (Forall_filter_nil is_send l1)
    by (eapply Forall_impl; [ | exact F1]; apply is_send_network).
  rewrite (Forall_filter_nil is_wait l1)
    by (eapply Forall_impl; [ | exact F1]; apply is_wait_network).
  rewrite (Forall_filter_nil is_deployment_request l1)
    by (eapply Forall_impl; [ | exact F1]; apply is_deployment_request_network).
  rewrite (Forall_filter_nil is_keyset_request l1)
    by (eapply Forall_impl; [ | exact F1]; apply is_keyset_request_network).
  cbn. auto.
Qed.

(** X2.  The parent chain is called only after both clients exist:
    wherever a call to the network stands in the trace of a run,
    [startup] has returned and the creation of the public client and
    of the wallet client stand before it. *)
Theorem network_calls_need_both_clients
  (W : World) (en : Env) (pre : list Event) (e : Event) (post : list Event) :
  trace (snd (program W en initial)) = pre ++ e :: post ->
  is_network_call e = true ->
  exists ctx s1,
    startup W en initial = (Ok ctx, s1) /\
    In (Called (CreatePublicClient (arbitrumSepolia W) (http (PARENT_CHAIN_RPC en))))
       pre /\
    In (Called (CreateWalletClient (deployer ctx) (arbitrumSepolia W)
                  (http (PARENT_CHAIN_RPC en))))
       pre.
Proof.
  intros Hsplit Hnet.
  destruct (program_trace_split W en)
    as (l1 & l2 & E & E1 & F1 & _ & _ & _ & _ & _ & Hthrow).
  rewrite E in Hsplit. rewrite Forall_forall in F1.
  assert (Hpre : exists l, pre = l1 ++ l).
  { symmetry in Hsplit. apply app_eq_app in Hsplit.
    destruct Hsplit as (l & [(Hp & _) | (Hl1 & Hl)]).
    - exists l. exact Hp.
    - destruct l as [ | x l].
      + exists []. rewrite app_nil_r in Hl1. now rewrite Hl1, app_nil_r.
      + cbn in Hl. inversion Hl; subst x.
        assert (Hin : In e l1) by (rewrite Hl1; apply in_or_app; right; now left).
        rewrite (F1 e Hin) in Hnet. discriminate. }
  destruct Hpre as (l & ->).
  destruct (startup W en initial) as [[ctx | err] s1] eqn:Hrun.
  - exists ctx, s1. split; [reflexivity | ].
    destruct (startup_ok W en initial ctx s1 Hrun)
      as (_ & _ & _ & _ & _ & _ & _ & _ & Hpc & Hwc).
    cbn in E1. rewrite E1 in Hpc, Hwc. split; apply in_or_app; auto.
  - rewrite (Hthrow err eq_refl) in Hsplit. rewrite app_nil_r in Hsplit.
    assert (Hin : In e l1)
      by (rewrite Hsplit, <- app_assoc; apply in_or_app; right;
          apply in_or_app; right; now left).
    rewrite (F1 e Hin) in Hnet. discriminate.
Qed.

Lemma network_calls_need_both_clients_witness :
  exists ctx s1,
    startup okWorld minimalEnv initial = (Ok ctx, s1) /\
    In (Called (CreatePublicClient (arbitrumSepolia okWorld) (http None)))
       (firstn 12 (trace (snd (program okWorld minimalEnv initial)))) /\
    In (Called (CreateWalletClient (deployer ctx) (arbitrumSepolia okWorld)
                  (http None)))
       (firstn 12 (trace (snd (program okWorld minimalEnv initial)))).
Proof.
  refine (network_calls_need_both_clients okWorld minimalEnv
            (firstn 12 (trace (snd (program okWorld minimalEnv initial))))
            (Called (CreateRollupPrepareTransactionRequest
                       (deploymentArgs sampleCtx
                          (Some "0xFEE0000000000000000000000000000000000001")
                          (mkRollupConfig 1002 "addr-of-0xd1" "{}" []))))
            (skipn 13 (trace (snd (program okWorld minimalEnv initial))))
            _ eq_refl).
  vm_compute. reflexivity.
Defined.

(** X3.  A malformed batch-poster key does not fall back to a
    generated key.  When [BATCH_POSTER_PRIVATE_KEY] is a non-empty
    string that is not accepted -- [privateKeyToAccount] rejects the
    sanitized key, or [sanitizePrivateKey] itself rejects the string --
    the program throws that error; all it has done is write the
    endpoint warning, if due, call [sanitizePrivateKey] and, when that
    returned, [privateKeyToAccount]: no key is generated and no client
    is created. *)
Theorem malformed_batch_poster_key_is_fatal
  (W : World) (en : Env) (dk fee x : string) (e : JsError) (s : State) :
  DEPLOYER_PRIVATE_KEY en = Some dk ->
  CUSTOM_FEE_TOKEN_ADDRESS en = Some fee ->
  BATCH_POSTER_PRIVATE_KEY en = Some x ->
  x <> EmptyString ->
  sanitizePrivateKey_of W x = Throw e
  \/ (exists k, sanitizePrivateKey_of W x = Ok k /\ addressOfKey W k = Throw e) ->
  exists tail,
    program W en s
    = (Throw e,
       mkState
         (trace s
          ++ (if undefined_or_empty (PARENT_CHAIN_RPC en)
              then [ConsoleWarn rpc_warning] else [])
          ++ Called (SanitizePrivateKey x) :: tail)
         (draws s)) /\
    (sanitizePrivateKey_of W x = Throw e /\ tail = []
     \/ exists k,
          sanitizePrivateKey_of W x = Ok k /\
          tail = [Called (PrivateKeyToAccount k)]).
Proof.
  intros Hd Hf Hb Hx He. apply String.eqb_neq in Hx.
  destruct He as [He | (k & Hk & He)].
  - exists []. split; [ | now left ].
    unfold_script. rewrite Hd, Hf, Hb, Hx. unfold_monad.
    destruct (undefined_or_empty (PARENT_CHAIN_RPC en)); cbn; rewrite He; cbn.
    + now rewrite <- app_assoc.
    + reflexivity.
  - exists [Called (PrivateKeyToAccount k)]. split; [ | right; eauto ].
    unfold_script. rewrite Hd, Hf, Hb, Hx. unfold_monad.
    destruct (undefined_or_empty (PARENT_CHAIN_RPC en)); cbn;
      rewrite Hk; cbn; rewrite He; cbn.
    + now repeat rewrite <- app_assoc.
    + now repeat rewrite <- app_assoc.
Qed.

Lemma malformed_batch_poster_key_is_fatal_witness :
  program checkedKeyWorld badBatchPosterEnv initial
  = (Throw "Error: invalid private key",
     mkState [Called (SanitizePrivateKey "bad");
              Called (PrivateKeyToAccount "0xbad")] 0).
Proof.
  assert (Hne : "bad" <> EmptyString) by discriminate.
  destruct (malformed_batch_poster_key_is_fatal
              checkedKeyWorld badBatchPosterEnv "0xd1"
              "0xFEE0000000000000000000000000000000000001" "bad"
              "Error: invalid private key" initial
              eq_refl eq_refl eq_refl Hne
              (or_intror (ex_intro _ "0xbad" (conj eq_refl eq_refl))))
    as (tail & Hrun & [(Hs & _) | (k & Hk & ->)]).
  - vm_compute in Hs. discriminate Hs.
  - vm_compute in Hk. inversion Hk; subst k. exact Hrun.
Defined.

(** X4.  The only errors that leave [main] are those of the three
    configuration calls made before the first [try]: [main] throws
    exactly when they throw, with the same error and state, and then
    neither phase has started -- what [main] has added to the trace
    holds no call to the network. *)
Theorem main_throws_only_from_configuration
  (W : World) (ctx : Ctx) (s : State) :
  (forall e s0,
      main W ctx s = (Throw e, s0) <-> prepareConfig W ctx s = (Throw e, s0)) /\
  (forall e s0,
      main W ctx s = (Throw e, s0) ->
      exists l,
        trace s0 = trace s ++ l /\
        Forall (fun ev => is_network_call ev = false) l).
Proof.
  assert (Hiff : forall e s0,
             main W ctx s = (Throw e, s0) <-> prepareConfig W ctx s = (Throw e, s0)).
  { intros e s0. split.
    - intros Hmain.
      destruct (prepareConfig W ctx s) as [[cfg | e'] s1] eqn:Hcfg.
      + destruct (deploymentBody W ctx (CUSTOM_FEE_TOKEN_ADDRESS (env ctx)) cfg s1)
          as [r s2] eqn:Hdep.
        destruct (main_after_config W ctx s cfg s1 r s2 Hcfg Hdep) as (n & E).
        rewrite E in Hmain. discriminate.
      + rewrite (main_config_error W ctx s e' s1 Hcfg) in Hmain.
        inversion Hmain; subst. reflexivity.
    - apply main_config_error. }
  split; [exact Hiff | ].
  intros e s0 Hmain. apply Hiff in Hmain.
  exact (emits_run _ _ _ _ _ _ (prepareConfig_no_network W ctx) Hmain).
Qed.

Lemma main_throws_only_from_configuration_witness :
  exists l,
    main strictWorld sampleCtx initial
    = (Throw "Error: invalid chain config", mkState l 1) /\
    Forall (fun ev => is_network_call ev = false) l.
Proof.
  destruct (proj2 (main_throws_only_from_configuration strictWorld sampleCtx initial)
              "Error: invalid chain config"
              (snd (main strictWorld sampleCtx initial)) eq_refl)
    as (l & E & F).
  exists l. split; [ | exact F].
  vm_compute in E. subst l. vm_compute. reflexivity.
Defined.

(** ** Where the deployment phase stops *)

Section Stages.

Variable W : World.

(** Runs the first [try] block under the given answers of the world. *)
Ltac run_deployment :=
  unfold_script; unfold_monad; cbn;
  repeat match goal with
    | H : _ = Ok _ |- _ => rewrite H; cbn
    | H : _ = Throw _ |- _ => rewrite H; cbn
    end;
  f_equal; f_equal; repeat rewrite <- app_assoc; reflexivity.

Lemma deploymentBody_request_fails ctx nativeToken cfg s0 e :
  createRollupPrepareTransactionRequest_of W (deploymentArgs ctx nativeToken cfg)
    = Throw e ->
  deploymentBody W ctx nativeToken cfg s0
  = (Throw e,
     mkState
       (trace s0 ++
        [ Called (CreateRollupPrepareTransactionRequest
                    (deploymentArgs ctx nativeToken cfg)) ])
       (draws s0)).
Proof. intros H1. run_deployment. Qed.

Lemma deploymentBody_send_fails ctx nativeToken cfg s0 txRequest e :
  createRollupPrepareTransactionRequest_of W (deploymentArgs ctx nativeToken cfg)
    = Ok txRequest ->
  sendTransaction_of W (walletClient ctx) txRequest = Throw e ->
  deploymentBody W ctx nativeToken cfg s0
  = (Throw e,
     mkState
       (trace s0 ++
        [ Called (CreateRollupPrepareTransactionRequest
                    (deploymentArgs ctx nativeToken cfg));
          ConsoleLog [LStr "Transaction request prepared successfully"];
          ConsoleLog [LStr "Parent Chain ID:"; LNum (chainId txRequest)];
          ConsoleLog [LStr "Creating rollup..."];
          Called (SendTransaction (walletClient ctx) txRequest) ])
       (draws s0)).
Proof. intros H1 H2. run_deployment. Qed.

Lemma deploymentBody_wait_fails ctx nativeToken cfg s0 txRequest txHash e :
  createRollupPrepareTransactionRequest_of W (deploymentArgs ctx nativeToken cfg)
    = Ok txRequest ->
  sendTransaction_of W (walletClient ctx) txRequest = Ok txHash ->
  waitForTransactionReceipt_of W (parentChainPublicClient ctx) txHash = Throw e ->
  deploymentBody W ctx nativeToken cfg s0
  = (Throw e,
     mkState
       (trace s0 ++
        [ Called (CreateRollupPrepareTransactionRequest
                    (deploymentArgs ctx nativeToken cfg));
          ConsoleLog [LStr "Transaction request prepared successfully"];
          ConsoleLog [LStr "Parent Chain ID:"; LNum (chainId txRequest)];
          ConsoleLog [LStr "Creating rollup..."];
          Called (SendTransaction (walletClient ctx) txRequest);
          ConsoleLog [LStr "Transaction sent. Waiting for confirmation..."];
          Called (WaitForTransactionReceipt (parentChainPublicClient ctx) txHash) ])
       (draws s0)).
Proof. intros H1 H2 H3. run_deployment. Qed.

Lemma deploymentBody_parse_fails ctx nativeToken cfg s0
      txRequest txHash receipt e :
  createRollupPrepareTransactionRequest_of W (deploymentArgs ctx nativeToken cfg)
    = Ok txRequest ->
  sendTransaction_of W (walletClient ctx) txRequest = Ok txHash ->
  waitForTransactionReceipt_of W (parentChainPublicClient ctx) txHash = Ok receipt ->
  createRollupPrepareTransactionReceipt_of W receipt = Throw e
  \/ (exists txReceipt,
        createRollupPrepareTransactionReceipt_of W receipt = Ok txReceipt /\
        getCoreContracts_of W txReceipt = Throw e) ->
  exists tail,
    deploymentBody W ctx nativeToken cfg s0
    = (Throw e,
       mkState
         (trace s0 ++
          [ Called (CreateRollupPrepareTransactionRequest
                      (deploymentArgs ctx nativeToken cfg));
            ConsoleLog [LStr "Transaction request prepared successfully"];
            ConsoleLog [LStr "Parent Chain ID:"; LNum (chainId txRequest)];
            ConsoleLog [LStr "Creating rollup..."];
            Called (SendTransaction (walletClient ctx) txRequest);
            ConsoleLog [LStr "Transaction sent. Waiting for confirmation..."];
            Called (WaitForTransactionReceipt (parentChainPublicClient ctx) txHash);
            ConsoleLog [LStr ("Transaction confirmed: "
                              ++ transactionHash receipt)%string];
            Called (CreateRollupPrepareTransactionReceipt receipt) ]
          ++ tail)
         (draws s0)) /\
    (tail = [] \/ exists txReceipt, tail = [Called (GetCoreContracts txReceipt)]).
Proof.
  intros H1 H2 H3 [H4 | (txReceipt & H4 & H5)].
  - exists []. split; [ run_deployment | now left ].
  - exists [Called (GetCoreContracts txReceipt)].
    split; [ run_deployment | right; eauto ].
Qed.

End Stages.

(** X5.  When building the deployment request throws, nothing is
    sent: after the configuration the run consists of the failed call,
    the [console.error] line and the keyset request. *)
Theorem failed_request_construction_sends_nothing
  (W : World) (ctx : Ctx) (s : State) (cfg : RollupConfig) (s0 : State)
  (e : JsError) :
  prepareConfig W ctx s = (Ok cfg, s0) ->
  createRollupPrepareTransactionRequest_of W
    (deploymentArgs ctx (CUSTOM_FEE_TOKEN_ADDRESS (env ctx)) cfg) = Throw e ->
  exists s2,
    main W ctx s = (Ok tt, s2) /\
    trace s2
    = trace s0 ++
      [ Called (CreateRollupPrepareTransactionRequest
                  (deploymentArgs ctx (CUSTOM_FEE_TOKEN_ADDRESS (env ctx)) cfg));
        ConsoleError ("Rollup creation failed with error: " ++ e)%string;
        Called (SetValidKeysetPrepareTransactionRequest (keysetArgs ctx)) ].
Proof.
  intros Hcfg H1.
  pose proof (deploymentBody_request_fails W ctx _ cfg s0 e H1) as Hdep.
  destruct (main_after_config W ctx s cfg s0 _ _ Hcfg Hdep) as (n & E).
  eexists. split; [exact E | ]. cbn. now rewrite <- app_assoc.
Qed.

Lemma failed_request_construction_sends_nothing_witness :
  exists s2,
    main requestFailWorld sampleCtx initial = (Ok tt, s2) /\
    filter is_send (trace s2) = [] /\
    In (ConsoleError "Rollup creation failed with error: Error: rpc unreachable")
       (trace s2).
Proof.
  destruct (failed_request_construction_sends_nothing
              requestFailWorld sampleCtx initial sampleConfig
              (snd (prepareConfig requestFailWorld sampleCtx initial))
              "Error: rpc unreachable" eq_refl eq_refl)
    as (s2 & Hmain & Htrace).
  exists s2. split; [exact Hmain | ]. rewrite Htrace.
  split; [vm_compute; reflexivity | vm_compute; tauto].
Defined.

(** X6.  When sending the deployment transaction throws, no receipt is
    awaited: the run logs the three progress lines, makes the failed
    send, writes the [console.error] line and goes to the keyset
    request; the line announcing that the transaction was sent is not
    written. *)
Theorem failed_submission_is_not_awaited
  (W : World) (ctx : Ctx) (s : State) (cfg : RollupConfig) (s0 : State)
  (txRequest : TxRequest) (e : JsError) :
  prepareConfig W ctx s = (Ok cfg, s0) ->
  createRollupPrepareTransactionRequest_of W
    (deploymentArgs ctx (CUSTOM_FEE_TOKEN_ADDRESS (env ctx)) cfg) = Ok txRequest ->
  sendTransaction_of W (walletClient ctx) txRequest = Throw e ->
  exists s2,
    main W ctx s = (Ok tt, s2) /\
    trace s2
    = trace s0 ++
      [ Called (CreateRollupPrepareTransactionRequest
                  (deploymentArgs ctx (CUSTOM_FEE_TOKEN_ADDRESS (env ctx)) cfg));
        ConsoleLog [LStr "Transaction request prepared successfully"];
        ConsoleLog [LStr "Parent Chain ID:"; LNum (chainId txRequest)];
        ConsoleLog [LStr "Creating rollup..."];
        Called (SendTransaction (walletClient ctx) txRequest);
        ConsoleError ("Rollup creation failed with error: " ++ e)%string;
        Called (SetValidKeysetPrepareTransactionRequest (keysetArgs ctx)) ].
Proof.
  intros Hcfg H1 H2.
  pose proof (deploymentBody_send_fails W ctx _ cfg s0 _ e H1 H2) as Hdep.
  destruct (main_after_config W ctx s cfg s0 _ _ Hcfg Hdep) as (n & E).
  eexists. split; [exact E | ]. cbn. now rewrite <- app_assoc.
Qed.

Lemma failed_submission_is_not_awaited_witness :
  exists s2,
    main submitFailWorld sampleCtx initial = (Ok tt, s2) /\
    filter is_wait (trace s2) = [] /\
    In (ConsoleError "Rollup creation failed with error: Error: insufficient funds")
       (trace s2).
Proof.
  destruct (failed_submission_is_not_awaited
              submitFailWorld sampleCtx initial sampleConfig
              (snd (prepareConfig submitFailWorld sampleCtx initial))
              sampleRequest "Error: insufficient funds" eq_refl eq_refl eq_refl)
    as (s2 & Hmain & Htrace).
  exists s2. split; [exact Hmain | ]. rewrite Htrace.
  split; [vm_compute; reflexivity | vm_compute; tauto].
Defined.

(** X7.  When the wait for the receipt throws, the transaction has
    been sent and stays sent: the run has logged that it was sent,
    writes the [console.error] line and goes to the keyset request,
    without a confirmation line and without parsing any receipt. *)
Theorem failed_confirmation_wait_after_send
  (W : World) (ctx : Ctx) (s : State) (cfg : RollupConfig) (s0 : State)
  (txRequest : TxRequest) (txHash : Hex) (e : JsError) :
  prepareConfig W ctx s = (Ok cfg, s0) ->
  createRollupPrepareTransactionRequest_of W
    (deploymentArgs ctx (CUSTOM_FEE_TOKEN_ADDRESS (env ctx)) cfg) = Ok txRequest ->
  sendTransaction_of W (walletClient ctx) txRequest = Ok txHash ->
  waitForTransactionReceipt_of W (parentChainPublicClient ctx) txHash = Throw e ->
  exists s2,
    main W ctx s = (Ok tt, s2) /\
    trace s2
    = trace s0 ++
      [ Called (CreateRollupPrepareTransactionRequest
                  (deploymentArgs ctx (CUSTOM_FEE_TOKEN_ADDRESS (env ctx)) cfg));
        ConsoleLog [LStr "Transaction request prepared successfully"];
        ConsoleLog [LStr "Parent Chain ID:"; LNum (chainId txRequest)];
        ConsoleLog [LStr "Creating rollup..."];
        Called (SendTransaction (walletClient ctx) txRequest);
        ConsoleLog [LStr "Transaction sent. Waiting for confirmation..."];
        Called (WaitForTransactionReceipt (parentChainPublicClient ctx) txHash);
        ConsoleError ("Rollup creation failed with error: " ++ e)%string;
        Called (SetValidKeysetPrepareTransactionRequest (keysetArgs ctx)) ].
Proof.
  intros Hcfg H1 H2 H3.
  pose proof (deploymentBody_wait_fails W ctx _ cfg s0 _ _ e H1 H2 H3) as Hdep.
  destruct (main_after_config W ctx s cfg s0 _ _ Hcfg Hdep) as (n & E).
  eexists. split; [exact E | ]. cbn. now rewrite <- app_assoc.
Qed.

Lemma failed_confirmation_wait_after_send_witness :
  exists s2,
    main waitFailWorld sampleCtx initial = (Ok tt, s2) /\
    length (filter is_send (trace s2)) = 1 /\
    In (ConsoleError "Rollup creation failed with error: Error: timed out")
       (trace s2).
Proof.
  destruct (failed_confirmation_wait_after_send
              waitFailWorld sampleCtx initial sampleConfig
              (snd (prepareConfig waitFailWorld sampleCtx initial))
              sampleRequest "0xhash" "Error: timed out"
              eq_refl eq_refl eq_refl eq_refl)
    as (s2 & Hmain & Htrace).
  exists s2. split; [exact Hmain | ]. rewrite Htrace.
  split; [vm_compute; reflexivity | vm_compute; tauto].
Defined.

(** X8.  When the transaction is confirmed but its receipt cannot be
    turned into core contracts -- [createRollupPrepareTransactionReceipt]
    throws, or [getCoreContracts] does -- the run has logged the
    transaction hash and logs no contract address: after the failed
    call come the [console.error] line and the keyset request. *)
Theorem unparsable_receipt_logs_no_address
  (W : World) (ctx : Ctx) (s : State) (cfg : RollupConfig) (s0 : State)
  (txRequest : TxRequest) (txHash : Hex) (receipt : Receipt) (e : JsError) :
  prepareConfig W ctx s = (Ok cfg, s0) ->
  createRollupPrepareTransactionRequest_of W
    (deploymentArgs ctx (CUSTOM_FEE_TOKEN_ADDRESS (env ctx)) cfg) = Ok txRequest ->
  sendTransaction_of W (walletClient ctx) txRequest = Ok txHash ->
  waitForTransactionReceipt_of W (parentChainPublicClient ctx) txHash = Ok receipt ->
  createRollupPrepareTransactionReceipt_of W receipt = Throw e
  \/ (exists txReceipt,
        createRollupPrepareTransactionReceipt_of W receipt = Ok txReceipt /\
        getCoreContracts_of W txReceipt = Throw e) ->
  exists s2 tail,
    main W ctx s = (Ok tt, s2) /\
    trace s2
    = trace s0 ++
      [ Called (CreateRollupPrepareTransactionRequest
                  (deploymentArgs ctx (CUSTOM_FEE_TOKEN_ADDRESS (env ctx)) cfg));
        ConsoleLog [LStr "Transaction request prepared successfully"];
        ConsoleLog [LStr "Parent Chain ID:"; LNum (chainId txRequest)];
        ConsoleLog [LStr "Creating rollup..."];
        Called (SendTransaction (walletClient ctx) txRequest);
        ConsoleLog [LStr "Transaction sent. Waiting for confirmation..."];
        Called (WaitForTransactionReceipt (parentChainPublicClient ctx) txHash);
        ConsoleLog [LStr ("Transaction confirmed: " ++ transactionHash receipt)%string];
        Called (CreateRollupPrepareTransactionReceipt receipt) ]
      ++ tail
      ++ [ ConsoleError ("Rollup creation failed with error: " ++ e)%string;
           Called (SetValidKeysetPrepareTransactionRequest (keysetArgs ctx)) ] /\
    (tail = [] \/ exists txReceipt, tail = [Called (GetCoreContracts txReceipt)]).
Proof.
  intros Hcfg H1 H2 H3 H4.
  destruct (deploymentBody_parse_fails W ctx _ cfg s0 _ _ _ e H1 H2 H3 H4)
    as (tail & Hdep & Htail).
  destruct (main_after_config W ctx s cfg s0 _ _ Hcfg Hdep) as (n & E).
  eexists. exists tail. split; [exact E | ]. split; [ | exact Htail].
  cbn. repeat rewrite <- app_assoc. reflexivity.
Qed.

Lemma unparsable_receipt_logs_no_address_witness :
  exists s2,
    main parseFailWorld sampleCtx initial = (Ok tt, s2) /\
    In (ConsoleLog [LStr "Transaction confirmed: 0xhash"]) (trace s2) /\
    In (ConsoleError "Rollup creation failed with error: Error: no RollupCreated log")
       (trace s2).
Proof.
  destruct (unparsable_receipt_logs_no_address
              parseFailWorld sampleCtx initial sampleConfig
              (snd (prepareConfig parseFailWorld sampleCtx initial))
              sampleRequest "0xhash" sampleReceipt "Error: no RollupCreated log"
              eq_refl eq_refl eq_refl eq_refl
              (or_intror (ex_intro _ sampleReceipt (conj eq_refl eq_refl))))
    as (s2 & tail & Hmain & Htrace & Htail).
  exists s2. split; [exact Hmain | ]. rewrite Htrace.
  split; apply in_or_app; right; apply in_or_app.
  - left. vm_compute. tauto.
  - right. apply in_or_app. right. vm_compute. tauto.
Defined.

(** ** What the requests are built from *)

(** X9.  In a run whose [startup] returns, the identities of the
    context are the resolved ones -- the batch-poster key and the
    validator key are what [withFallbackPrivateKey] gives for their
    variables, the deployer key is the sanitized [DEPLOYER_PRIVATE_KEY],
    and each address is the address of its key.  Every deployment
    request of the run names the deployer address as account, the
    batch-poster address as its one batch poster, the validator address
    as its one validator, and the public client of the context; every
    keyset request names the same account and public client and the
    literal keyset.  And when the configuration of [main] returns, both
    requests are built. *)
Theorem requests_name_the_resolved_identities
  (W : World) (en : Env) (ctx : Ctx) (s1 : State) :
  startup W en initial = (Ok ctx, s1) ->
  (fallbackKey W (BATCH_POSTER_PRIVATE_KEY en) 0 = Ok (batchPosterPrivateKey ctx) /\
   addressOfKey W (batchPosterPrivateKey ctx) = Ok (batchPoster ctx)) /\
  (fallbackKey W (VALIDATOR_PRIVATE_KEY en) (validator_draw en 0)
   = Ok (validatorPrivateKey ctx) /\
   addressOfKey W (validatorPrivateKey ctx) = Ok (validator ctx)) /\
  (exists dk,
      DEPLOYER_PRIVATE_KEY en = Some dk /\
      sanitizePrivateKey_of W dk = Ok (account_key (deployer ctx)) /\
      addressOfKey W (account_key (deployer ctx)) = Ok (address (deployer ctx))) /\
  parentChainPublicClient ctx
  = mkPublicClient (arbitrumSepolia W) (http (PARENT_CHAIN_RPC en)) /\
  Forall
    (fun e =>
       (forall a,
           e = Called (CreateRollupPrepareTransactionRequest a) ->
           cr_account a = address (deployer ctx) /\
           cr_batchPosters a = [batchPoster ctx] /\
           cr_validators a = [validator ctx] /\
           cr_publicClient a = parentChainPublicClient ctx)
       /\
       (forall a,
           e = Called (SetValidKeysetPrepareTransactionRequest a) ->
           sk_account a = address (deployer ctx) /\
           sk_keyset a = keyset /\
           sk_publicClient a = parentChainPublicClient ctx))
    (trace (snd (program W en initial))) /\
  (forall cfg s0,
      prepareConfig W ctx s1 = (Ok cfg, s0) ->
      In (Called (CreateRollupPrepareTransactionRequest
                    (deploymentArgs ctx (CUSTOM_FEE_TOKEN_ADDRESS en) cfg)))
         (trace (snd (program W en initial))) /\
      exists pre,
        trace (snd (program W en initial))
        = pre ++ [Called (SetValidKeysetPrepareTransactionRequest (keysetArgs ctx))]).
Proof.
  intros Hrun.
  destruct (startup_ok W en initial ctx s1 Hrun)
    as (Henv & _ & Hpc & _ & Hdep & _ & Hbp & Hva & _).
  destruct (startup_fallback_keys W en initial ctx s1 Hrun) as (Hkb & Hkv).
  split; [auto | ]. split; [auto | ]. split; [exact Hdep | ].
  split; [exact Hpc | ]. split.
  - rewrite program_unfold, Hrun.
    assert (Hs : emits
                   (fun e =>
                      (forall a,
                          e = Called (CreateRollupPrepareTransactionRequest a) ->
                          cr_account a = address (deployer ctx) /\
                          cr_batchPosters a = [batchPoster ctx] /\
                          cr_validators a = [validator ctx] /\
                          cr_publicClient a = parentChainPublicClient ctx)
                      /\
                      (forall a,
                          e = Called (SetValidKeysetPrepareTransactionRequest a) ->
                          sk_account a = address (deployer ctx) /\
                          sk_keyset a = keyset /\
                          sk_publicClient a = parentChainPublicClient ctx))
                   (startup W en))
      by (apply startup_emits_calls; intros; split; intros; discriminate).
    destruct (emits_run _ _ _ _ _ _ Hs Hrun) as (l1 & E1 & F1).
    assert (Hm : emits
                   (fun e =>
                      (forall a,
                          e = Called (CreateRollupPrepareTransactionRequest a) ->
                          cr_account a = address (deployer ctx) /\
                          cr_batchPosters a = [batchPoster ctx] /\
                          cr_validators a = [validator ctx] /\
                          cr_publicClient a = parentChainPublicClient ctx)
                      /\
                      (forall a,
                          e = Called (SetValidKeysetPrepareTransactionRequest a) ->
                          sk_account a = address (deployer ctx) /\
                          sk_keyset a = keyset /\
                          sk_publicClient a = parentChainPublicClient ctx))
                   (main W ctx)).
    { unfold_script. repeat emits_step.
      all: split; intros args H; try discriminate.
      all: inversion H; subst; clear H; cbn; auto. }
    destruct (Hm s1) as (l2 & E2 & F2).
    rewrite E2, E1. cbn. apply Forall_app. auto.
  - intros cfg s0 Hcfg.
    destruct (program_builds_both_requests W en ctx s1 cfg s0 Hrun Hcfg)
      as (Hreq & Hkey).
    rewrite Henv in Hreq. auto.
Qed.

Lemma requests_name_the_resolved_identities_witness :
  In (Called (CreateRollupPrepareTransactionRequest
                (mkCreateRollupArgs
                   (mkRollupConfig 1000 "addr-of-0xd1" "{}" [])
                   ["addr-of-0xb1"] ["addr-of-0xv1"]
                   (Some "0xFEE0000000000000000000000000000000000001")
                   "addr-of-0xd1"
                   (mkPublicClient (arbitrumSepolia okWorld)
                      (http (Some "https://rpc.example"))))))
     (trace (snd (program okWorld fullEnv initial))) /\
  sanitizePrivateKey_of okWorld "b1" = Ok "0xb1" /\
  addressOfKey okWorld "0xb1" = Ok "addr-of-0xb1" /\
  sanitizePrivateKey_of okWorld "0xv1" = Ok "0xv1" /\
  addressOfKey okWorld "0xv1" = Ok "addr-of-0xv1".
Proof.
  destruct (requests_name_the_resolved_identities
              okWorld fullEnv
              (mkCtx fullEnv "0xb1" "addr-of-0xb1" "0xv1" "addr-of-0xv1"
                 (arbitrumSepolia okWorld)
                 (mkPublicClient (arbitrumSepolia okWorld)
                    (http (Some "https://rpc.example")))
                 (mkAccount "addr-of-0xd1" "0xd1")
                 (mkWalletClient (mkAccount "addr-of-0xd1" "0xd1")
                    (arbitrumSepolia okWorld)
                    (http (Some "https://rpc.example"))))
              (snd (startup okWorld fullEnv initial)) eq_refl)
    as ((Hkb & Hab) & (Hkv & Hav) & _ & _ & _ & Hbuilt).
  destruct (Hbuilt (mkRollupConfig 1000 "addr-of-0xd1" "{}" [])
              (snd (prepareConfig okWorld
                      (mkCtx fullEnv "0xb1" "addr-of-0xb1" "0xv1" "addr-of-0xv1"
                         (arbitrumSepolia okWorld)
                         (mkPublicClient (arbitrumSepolia okWorld)
                            (http (Some "https://rpc.example")))
                         (mkAccount "addr-of-0xd1" "0xd1")
                         (mkWalletClient (mkAccount "addr-of-0xd1" "0xd1")
                            (arbitrumSepolia okWorld)
                            (http (Some "https://rpc.example"))))
                      (snd (startup okWorld fullEnv initial))))
              eq_refl) as (Hreq & _).
  split; [exact Hreq | ]. split; [exact Hkb | ]. split; [exact Hab | ].
  split; [exact Hkv | exact Hav].
Defined.

(** X10.  [main] draws one chain id and uses it throughout: its first
    two events are the draw and [prepareChainConfig] called with that
    id, the deployer address as initial chain owner and the
    data-availability committee switched on; every later
    [createRollupPrepareDeploymentParamsConfig] call carries the same id,
    the same owner and the chain config just returned, and every
    deployment request carries the configuration that call returned.
    No second id is drawn. *)
Theorem chain_configuration_calls_agree (W : World) (ctx : Ctx) (s : State) :
  let id := generateChainId_at W (draws s) in
  let owner := address (deployer ctx) in
  let params := mkChainConfigParams id owner true in
  exists l,
    trace (snd (main W ctx s))
    = trace s ++ Called GenerateChainId :: Called (PrepareChainConfig params) :: l /\
    Forall
      (fun e =>
         e <> Called GenerateChainId /\
         (forall p, e <> Called (PrepareChainConfig p)) /\
         (forall c p,
             e = Called (CreateRollupPrepareDeploymentParamsConfig c p) ->
             c = parentChainPublicClient ctx /\
             dp_chainId p = id /\ dp_owner p = owner /\
             prepareChainConfig_of W params = Ok (dp_chainConfig p)) /\
         (forall a,
             e = Called (CreateRollupPrepareTransactionRequest a) ->
             exists chainConfig,
               prepareChainConfig_of W params = Ok chainConfig /\
               createRollupPrepareDeploymentParamsConfig_of W
                 (parentChainPublicClient ctx)
                 (mkDeploymentParams id owner chainConfig)
               = Ok (cr_config a)))
      l.
Proof.
  cbv zeta. run_startup.
  all: repeat rewrite <- app_assoc; cbn; eexists; split; [ reflexivity | ].
  all: repeat (apply Forall_cons || apply Forall_nil).
  all: split; [ discriminate | split; [ discriminate | split ] ].
  all: intros; try discriminate.
  all: match goal with
       | H : Called _ = Called _ |- _ => inversion H; subst; clear H
       end; cbn; eauto.
Qed.

(** X11.  A [startup] that returns has called [generatePrivateKey]
    once for each optional key that is [undefined] or empty, and
    [sanitizePrivateKey] once for each other optional key and once for
    the deployer key: three keys in all, and as many random draws as
    keys were generated. *)
Theorem optional_keys_are_generated_once
  (W : World) (en : Env) (s : State) (ctx : Ctx) (s' : State) :
  startup W en s = (Ok ctx, s') ->
  draws s' = draws s + missing_optional_keys en /\
  exists l,
    trace s' = trace s ++ l /\
    length (filter is_generate l) = missing_optional_keys en /\
    length (filter is_sanitize l) = 3 - missing_optional_keys en.
Proof.
  intros Hrun.
  destruct (startup_key_calls W en s ctx s' Hrun) as (Hd & Hl & _).
  auto.
Qed.

Lemma optional_keys_are_generated_once_witness :
  draws (snd (startup okWorld minimalEnv initial)) = 2 /\
  exists l,
    trace (snd (startup okWorld minimalEnv initial)) = l /\
    length (filter is_generate l) = 2 /\
    length (filter is_sanitize l) = 1.
Proof.
  exact (optional_keys_are_generated_once
           okWorld minimalEnv initial sampleCtx
           (snd (startup okWorld minimalEnv initial)) eq_refl).
Defined.

(** X12.  Where the batch-poster and validator keys of the context
    come from: an optional variable set to a non-empty string gives
    the key that [sanitizePrivateKey] returns for it; one that is
    [undefined] or empty gives a generated key, and when both are
    generated they come from two successive draws, the batch poster's
    first. *)
Theorem optional_key_provenance
  (W : World) (en : Env) (s : State) (ctx : Ctx) (s' : State) :
  startup W en s = (Ok ctx, s') ->
  (undefined_or_empty (BATCH_POSTER_PRIVATE_KEY en) = true ->
   batchPosterPrivateKey ctx = generatePrivateKey_at W (draws s)) /\
  (forall x,
      BATCH_POSTER_PRIVATE_KEY en = Some x -> x <> EmptyString ->
      sanitizePrivateKey_of W x = Ok (batchPosterPrivateKey ctx)) /\
  (undefined_or_empty (VALIDATOR_PRIVATE_KEY en) = true ->
   validatorPrivateKey ctx
   = generatePrivateKey_at W
       (draws s + if undefined_or_empty (BATCH_POSTER_PRIVATE_KEY en)
                  then 1 else 0)) /\
  (forall x,
      VALIDATOR_PRIVATE_KEY en = Some x -> x <> EmptyString ->
      sanitizePrivateKey_of W x = Ok (validatorPrivateKey ctx)).
Proof.
  intros Hrun.
  destruct (startup_key_calls W en s ctx s' Hrun) as (_ & _ & H).
  exact H.
Qed.

Lemma optional_key_provenance_witness :
  batchPosterPrivateKey sampleCtx = generatePrivateKey_at okWorld 0 /\
  validatorPrivateKey sampleCtx = generatePrivateKey_at okWorld 1.
Proof.
  destruct (optional_key_provenance
              okWorld minimalEnv initial sampleCtx
              (snd (startup okWorld minimalEnv initial)) eq_refl)
    as (Hb & _ & Hv & _).
  split; [exact (Hb eq_refl) | exact (Hv eq_refl)].
Defined.

(** X13.  The result of the run does not tell whether a phase failed:
    the program ends without error exactly when [startup] returns and
    the configuration calls of [main] return, whatever the deployment
    phase and the keyset phase do afterwards. *)
Theorem run_result_ignores_both_phases (W : World) (en : Env) :
  fst (program W en initial) = Ok tt <->
  exists ctx s1 cfg s0,
    startup W en initial = (Ok ctx, s1) /\
    prepareConfig W ctx s1 = (Ok cfg, s0).
Proof.
  rewrite program_unfold. split.
  - destruct (startup W en initial) as [[ctx | e] s1] eqn:Hrun;
      [ | discriminate ].
    destruct (prepareConfig W ctx s1) as [[cfg | e] s0] eqn:Hcfg.
    + intros _. exists ctx, s1, cfg, s0. auto.
    + rewrite (main_config_error W ctx s1 e s0 Hcfg). discriminate.
  - intros (ctx & s1 & cfg & s0 & Hrun & Hcfg). rewrite Hrun.
    destruct (deploymentBody W ctx (CUSTOM_FEE_TOKEN_ADDRESS (env ctx)) cfg s0)
      as [r s2] eqn:Hdep.
    destruct (main_after_config W ctx s1 cfg s0 r s2 Hcfg Hdep) as (n & E).
    now rewrite E.
Qed.
